(** * Expense tracker: the monthly aggregation code, embedded and verified

    The pages of the application (Home, Analytics, Trends) reduce the rows
    they fetch from the hosted store to a handful of figures: totals,
    per-category shares, a budget percentage and a six month series.  This
    file embeds that code and the store schema it runs against.

    Modelling conventions.

    - A JavaScript [number] is modelled twice.  Module [Ieee] is the number
      of the pages: an IEEE 754 double, with the operations of [SpecFloat]
      rounded to nearest, ties to even.  Modules [Analytics64] and [Home64]
      run the category breakdown and the budget card on it, and every
      statement about a figure in which rounding has a say (a share, a
      printed percentage, a sum compared with another sum) is made there.
      The type [number] is the decimal reading of the same code: finite
      values are exact rationals, as the [numeric] columns store them, and
      [NaN], [Infinity] and [-Infinity] are kept.  It carries the statements
      about which rows are fetched, counted and listed, about the guards,
      and about the thresholds applied to a percentage once it is computed.
      The two readings part where a result is not a double; the sections
      on the breakdown and on the budget card on doubles show where.
    - An instant is a count of milliseconds on the local time line; the
      calendar is the proleptic Gregorian one of ECMAScript's [MakeDay].
    - A [Map<string, number>] is an association list in insertion order,
      which is the order [Map.prototype.entries] enumerates.
    - The store is seen through row level security: a table is the list of
      rows of the signed-in user. *)

From Stdlib Require Import ZArith QArith Qround Qabs Lia Lqa List String Ascii Bool.
From Stdlib Require Import DecimalString DecimalN.
From Stdlib Require Import Permutation Sorted SpecFloat.
Import ListNotations.

Local Open Scope Z_scope.

(** ** JavaScript numbers, read as decimals

    The operations below are exact: [add], [mul] and [div] do not round.
    The rounded operations of the pages are those of module [Ieee]. *)

Inductive number : Type :=
| Num (q : Q)
| NaN
| Infinity (negative : bool).

Module Js.

Definition Qlt_bool (x y : Q) : bool := negb (Qle_bool y x).

Definition neg (a : number) : number :=
  match a with
  | Num x => Num (- x)%Q
  | NaN => NaN
  | Infinity s => Infinity (negb s)
  end.

Definition add (a b : number) : number :=
  match a, b with
  | Num x, Num y => Num (x + y)%Q
  | NaN, _ | _, NaN => NaN
  | Infinity s, Infinity s' => if Bool.eqb s s' then Infinity s else NaN
  | Infinity s, Num _ | Num _, Infinity s => Infinity s
  end.

Definition sub (a b : number) : number := add a (neg b).

Definition mul (a b : number) : number :=
  match a, b with
  | Num x, Num y => Num (x * y)%Q
  | NaN, _ | _, NaN => NaN
  | Infinity s, Infinity s' => Infinity (xorb s s')
  | Infinity s, Num y | Num y, Infinity s =>
      if Qeq_bool y 0%Q then NaN else Infinity (xorb s (Qlt_bool y 0%Q))
  end.

(** [x / 0] is [NaN] for [x = 0] and an infinity otherwise: division is the
    one operation of the pages that can leave the finite numbers. *)
Definition div (a b : number) : number :=
  match a, b with
  | Num x, Num y =>
      if Qeq_bool y 0%Q
      then (if Qeq_bool x 0%Q then NaN else Infinity (Qlt_bool x 0%Q))
      else Num (x / y)%Q
  | NaN, _ | _, NaN => NaN
  | Infinity _, Infinity _ => NaN
  | Infinity s, Num y => Infinity (xorb s (Qlt_bool y 0%Q))
  | Num _, Infinity _ => Num 0%Q
  end.

(** [a > b] and [a >= b]; every comparison with [NaN] is false. *)
Definition gt (a b : number) : bool :=
  match a, b with
  | Num x, Num y => Qlt_bool y x
  | Infinity false, Num _ | Num _, Infinity true => true
  | Infinity false, Infinity true => true
  | _, _ => false
  end.

Definition ge (a b : number) : bool :=
  match a, b with
  | Num x, Num y => Qle_bool y x
  | Infinity false, Num _ | Num _, Infinity true => true
  | Infinity s, Infinity s' => orb (negb s) s'
  | _, _ => false
  end.

(** Truthiness of a number, and [a || 0]. *)
Definition truthy (a : number) : bool :=
  match a with
  | Num x => negb (Qeq_bool x 0%Q)
  | NaN => false
  | Infinity _ => true
  end.

Definition or_zero (a : number) : number := if truthy a then a else Num 0%Q.

Definition of_nat (n : nat) : number := Num (inject_Z (Z.of_nat n)).

Definition is_finite (a : number) : bool :=
  match a with Num _ => true | _ => false end.

(** Equality of numbers up to the representation of a rational. *)
Definition eqn (a b : number) : Prop :=
  match a, b with
  | Num x, Num y => (x == y)%Q
  | NaN, NaN => True
  | Infinity s, Infinity s' => s = s'
  | _, _ => False
  end.

(** *** [Number.prototype.toFixed(1)]

    The integer [n] with [n / 10] closest to the magnitude (the larger one
    on a tie) is printed with a point before its last digit, behind the
    sign.  Magnitudes of 10^21 and more, which JavaScript prints in exponent
    notation, are outside the model. *)
Definition tenths (q : Q) : Z := Qfloor (10 * Qabs q + (1 # 2))%Q.

(** The same integer with the sign of [q]: what the printed string reads as,
    in tenths. *)
Definition rounded_tenths (q : Q) : Z :=
  if Qlt_bool q 0%Q then - tenths q else tenths q.

Definition digits (n : Z) : string :=
  NilZero.string_of_uint (N.to_uint (Z.to_N n)).

(** Strings of digits hold neither a point nor a sign. *)
Fixpoint plain (s : string) : Prop :=
  match s with
  | EmptyString => True
  | String c s' =>
      Ascii.eqb c "."%char = false /\ Ascii.eqb c "-"%char = false /\ plain s'
  end.

Definition toFixed1 (a : number) : string :=
  match a with
  | NaN => "NaN"
  | Infinity false => "Infinity"
  | Infinity true => "-Infinity"
  | Num q =>
      let n := tenths q in
      ((if Qlt_bool q 0%Q then "-" else "")
         ++ digits (n / 10) ++ "." ++ digits (n mod 10))%string
  end.

End Js.

Infix "=n=" := Js.eqn (at level 70, no associativity).

(** ** Rows of the store *)

(** A row of [public.expenses] or [public.incomes].  [date] is the instant
    of the [timestamptz] column, in whole milliseconds as [toISOString]
    writes it. *)
Record Row : Type := mkRow {
  title : string;
  amount : Q;
  category : string;
  date : Z
}.

(** [Number(row.amount)], read as the decimal the [numeric] column holds;
    [Analytics64.Number] is the double nearest to it, which the page gets. *)
Definition Number (r : Row) : number := Num (amount r).

(** [rows.reduce((sum, r) => sum + Number(r.amount), 0)] on decimals: the
    additions are exact here and rounded in [Analytics64.total]. *)
Definition reduce_amounts (rows : list Row) : number :=
  fold_left (fun sum r => Js.add sum (Number r)) rows (Num 0%Q).

(** The sum of the amounts, as mathematics writes it. *)
Fixpoint sum_amounts (rows : list Row) : Q :=
  match rows with
  | [] => 0%Q
  | r :: rows' => (amount r + sum_amounts rows')%Q
  end.

(** ** The calendar of [Date] *)

Module Calendar.

Definition msPerDay : Z := 86400000.

Definition InLeapYear (y : Z) : bool :=
  (y mod 4 =? 0) && (negb (y mod 100 =? 0) || (y mod 400 =? 0)).

Definition DayFromYear (y : Z) : Z :=
  365 * (y - 1970) + (y - 1969) / 4 - (y - 1901) / 100 + (y - 1601) / 400.

(** Day within the year on which month [mn] (0 to 11) starts. *)
Definition MonthStart (mn : Z) (leap : bool) : Z :=
  let l := if leap then 1 else 0 in
  match mn with
  | 0 => 0
  | 1 => 31
  | 2 => 59 + l
  | 3 => 90 + l
  | 4 => 120 + l
  | 5 => 151 + l
  | 6 => 181 + l
  | 7 => 212 + l
  | 8 => 243 + l
  | 9 => 273 + l
  | 10 => 304 + l
  | _ => 334 + l
  end.

(** [MakeDay(year, month, date)]: months outside 0..11 carry into the year,
    and the day of the month counts on from the first, so that day 0 is the
    last day of the month before. *)
Definition MakeDay (year month day : Z) : Z :=
  let ym := year + month / 12 in
  let mn := month mod 12 in
  DayFromYear ym + MonthStart mn (InLeapYear ym) + day - 1.

(** [new Date(year, month, day)], at local midnight. *)
Definition newDate (year month day : Z) : Z := msPerDay * MakeDay year month day.

(** A [Date] object as its local getters show it. *)
Record Date : Type := mkDate {
  getFullYear : Z;
  getMonth : Z;
  getDate : Z;
  timeOfDay : Z
}.

Definition getTime (d : Date) : Z :=
  newDate (getFullYear d) (getMonth d) (getDate d) + timeOfDay d.

(** What [d.setMonth(m + 1, 0); d.getDate()] reads: the length of month [m]. *)
Definition daysInMonth (year month : Z) : Z :=
  MakeDay year (month + 1) 1 - MakeDay year month 1.

Definition valid (d : Date) : Prop :=
  0 <= getMonth d < 12
  /\ 1 <= getDate d <= daysInMonth (getFullYear d) (getMonth d)
  /\ 0 <= timeOfDay d < msPerDay.

(** Months counted from year 0, to compare the months of two dates. *)
Definition monthIndex (d : Date) : Z := 12 * getFullYear d + getMonth d.

(** The instant [t] lies in month [k] (counted from year 0) of local time. *)
Definition inMonth (k t : Z) : Prop :=
  newDate 0 k 1 <= t < newDate 0 (k + 1) 1.

Definition inMonthb (k t : Z) : bool :=
  (newDate 0 k 1 <=? t) && (t <? newDate 0 (k + 1) 1).

End Calendar.

(** ** The functions of date-fns the pages call *)

Module DateFns.
Import Calendar.

(** [addMonths]: the day of the month is kept unless the target month is
    shorter, and so is the time of day. *)
Definition addMonths (d : Date) (amount : Z) : Date :=
  if amount =? 0 then d
  else
    let target := getMonth d + amount in
    let y := getFullYear d + target / 12 in
    let m := target mod 12 in
    let dim := daysInMonth y m in
    if getDate d >=? dim
    then mkDate y m dim (timeOfDay d)
    else mkDate y m (getDate d) (timeOfDay d).

Definition subMonths (d : Date) (amount : Z) : Date := addMonths d (- amount).

(** [startOfMonth]: [setDate(1); setHours(0, 0, 0, 0)]. *)
Definition startOfMonth (d : Date) : Z :=
  newDate (getFullYear d) (getMonth d) 1.

(** [endOfMonth]: [setFullYear(year, month + 1, 0); setHours(23, 59, 59, 999)]. *)
Definition endOfMonth (d : Date) : Z :=
  newDate (getFullYear d) (getMonth d + 1) 0
  + (23 * 3600000 + 59 * 60000 + 59 * 1000 + 999).

(** [format(d, "MMM")]. *)
Definition formatMMM (d : Date) : string :=
  nth (Z.to_nat (getMonth d))
    ["Jan"; "Feb"; "Mar"; "Apr"; "May"; "Jun";
     "Jul"; "Aug"; "Sep"; "Oct"; "Nov"; "Dec"]%string ""%string.

End DateFns.

(** ** The store *)

Module Store.

(** The two transaction tables of the migrations. *)
Inductive table : Type := expenses | incomes.

(** The [CHECK] constraint on the [amount] column:
    [amount NUMERIC NOT NULL CHECK (amount > 0)] for [public.expenses],
    [amount NUMERIC NOT NULL] for [public.incomes]. *)
Definition amount_check (t : table) (a : Q) : bool :=
  match t with
  | expenses => Js.Qlt_bool 0%Q a
  | incomes => true
  end.

(** A stored row under its primary key. *)
Definition Stored : Type := (string * Row)%type.

(** [from(t).insert([data])]; [id] is the key the store draws. *)
Definition insert (t : table) (rows : list Stored) (id : string) (data : Row)
  : option (list Stored) :=
  if amount_check t (amount data) then Some (rows ++ [(id, data)]) else None.

(** [from(t).update(data).eq("id", id)]. *)
Definition update (t : table) (rows : list Stored) (id : string) (data : Row)
  : option (list Stored) :=
  if existsb (fun s => String.eqb (fst s) id) rows
  then
    if amount_check t (amount data)
    then Some (map (fun s => if String.eqb (fst s) id then (id, data) else s) rows)
    else None
  else Some rows.

(** [from(t).delete().eq("id", id)]. *)
Definition delete (rows : list Stored) (id : string) : list Stored :=
  filter (fun s => negb (String.eqb (fst s) id)) rows.

(** The contents a table can reach from the empty table. *)
Inductive reachable (t : table) : list Stored -> Prop :=
| reach_empty : reachable t []
| reach_insert rows id data rows' :
    reachable t rows -> insert t rows id data = Some rows' -> reachable t rows'
| reach_update rows id data rows' :
    reachable t rows -> update t rows id data = Some rows' -> reachable t rows'
| reach_delete rows id :
    reachable t rows -> reachable t (delete rows id).

(** Every stored amount is positive. *)
Definition positive_amounts (rows : list Stored) : Prop :=
  Forall (fun s => (0 < amount (snd s))%Q) rows.

(** What a query answers: [{ data, error }]. *)
Record Response : Type := mkResponse {
  data : option (list Row);
  error : bool
}.

(** [select("*").gte("date", lo).lte("date", hi)]: both bounds inclusive. *)
Definition select_range (rows : list Row) (lo hi : Z) : Response :=
  mkResponse
    (Some (filter (fun r => (lo <=? date r) && (date r <=? hi)) rows))
    false.

(** [order("date", { ascending: false })]. *)
Fixpoint insert_desc (r : Row) (rows : list Row) : list Row :=
  match rows with
  | [] => [r]
  | r' :: rows' =>
      if date r' <=? date r then r :: rows else r' :: insert_desc r rows'
  end.

Definition order_desc (resp : Response) : Response :=
  mkResponse (option_map (fun rows => fold_right insert_desc [] rows) (data resp))
             (error resp).

(** The tables of the signed-in user. *)
Record Db : Type := mkDb {
  tbl_expenses : list Row;
  tbl_incomes : list Row
}.

Definition from (db : Db) (t : table) : list Row :=
  match t with
  | expenses => tbl_expenses db
  | incomes => tbl_incomes db
  end.

(** [data || []]. *)
Definition or_empty (d : option (list Row)) : list Row :=
  match d with Some rows => rows | None => [] end.

End Store.

(** ** Home: budget and month total *)

Module Home.
Import Calendar.

Record State : Type := mkState {
  expenses : list Row;
  budget : number;
  totalSpent : number
}.

Definition initial : State := mkState [] (Num 0%Q) (Num 0%Q).

(** [setBudget(data?.amount || 0)], for the row [maybeSingle] returns. *)
Definition fetchBudget (row : option Q) (st : State) : State :=
  let b := match row with
           | Some a => Js.or_zero (Num a)
           | None => Num 0%Q
           end in
  mkState (expenses st) b (totalSpent st).

Definition fetchExpenses (now : Date) (db : Store.Db) (st : State) : State :=
  let firstDay := newDate (getFullYear now) (getMonth now) 1 in
  let lastDay := newDate (getFullYear now) (getMonth now + 1) 0 in
  let resp :=
    Store.order_desc
      (Store.select_range (Store.from db Store.expenses) firstDay lastDay) in
  if Store.error resp then st
  else
    let rows := Store.or_empty (Store.data resp) in
    mkState rows (budget st) (reduce_amounts rows).

(** [budget > 0 ? (totalSpent / budget) * 100 : 0] on decimals;
    [Home64.budgetPercentage] is the double the page holds. *)
Definition budgetPercentage (totalSpent budget : number) : number :=
  if Js.gt budget (Num 0%Q)
  then Js.mul (Js.div totalSpent budget) (Num 100%Q)
  else Num 0%Q.

Definition remaining (totalSpent budget : number) : number :=
  Js.sub budget totalSpent.

(** The banner under the progress bar:
    [budgetPercentage >= 90 && (... budgetPercentage >= 100 ? ... : ...)]. *)
Definition banner (pct : number) : option string :=
  if Js.ge pct (Num 90%Q)
  then Some (if Js.ge pct (Num 100%Q)
             then "Budget exceeded!"%string
             else "Approaching budget limit"%string)
  else None.

Record BudgetStatus : Type := mkBudgetStatus {
  percentageUsed : number;
  remainingAmount : number;
  isWarning : bool;
  isExceeded : bool
}.

Definition shows (b : option string) (text : string) : bool :=
  match b with
  | Some s => String.eqb s text
  | None => false
  end.

(** The four figures of the budget card. *)
Definition budgetStatus (totalSpent budget : number) : BudgetStatus :=
  let pct := budgetPercentage totalSpent budget in
  mkBudgetStatus pct (remaining totalSpent budget)
    (shows (banner pct) "Approaching budget limit")
    (shows (banner pct) "Budget exceeded!").

End Home.

(** ** Analytics: summary and category breakdown *)

Module Analytics.
Import Calendar.

Record CategoryData : Type := mkCategoryData {
  name : string;
  value : number;
  percentage : string
}.

(** [Map<string, number>], entries in insertion order. *)
Definition CategoryMap : Type := list (string * number).

Fixpoint get (m : CategoryMap) (k : string) : option number :=
  match m with
  | [] => None
  | (k', v) :: m' => if String.eqb k' k then Some v else get m' k
  end.

(** [set] overwrites in place and appends a new key at the end. *)
Fixpoint set (m : CategoryMap) (k : string) (v : number) : CategoryMap :=
  match m with
  | [] => [(k, v)]
  | (k', v') :: m' =>
      if String.eqb k' k then (k', v) :: m' else (k', v') :: set m' k v
  end.

(** [categoryMap.get(c) || 0]. *)
Definition current (m : CategoryMap) (c : string) : number :=
  match get m c with
  | Some v => Js.or_zero v
  | None => Num 0%Q
  end.

(** The [forEach] that fills the map. *)
Definition categoryMap (rows : list Row) : CategoryMap :=
  fold_left
    (fun m r => set m (category r) (Js.add (current m (category r)) (Number r)))
    rows [].

(** [total > 0 ? ((value / total) * 100).toFixed(1) : "0"] on decimals;
    [Analytics64.share] prints the double the page computes. *)
Definition share (total v : number) : string :=
  if Js.gt total (Num 0%Q)
  then Js.toFixed1 (Js.mul (Js.div v total) (Num 100%Q))
  else "0"%string.

(** [Array.from(categoryMap.entries()).map(...)], for the rows of one kind. *)
Definition categoryBreakdown (rows : list Row) : list CategoryData :=
  let total := reduce_amounts rows in
  map (fun e => mkCategoryData (fst e) (snd e) (share total (snd e)))
      (categoryMap rows).

(** The earlier revision of the page divides without the guard:
    [((value / total) * 100).toFixed(1)]. *)
Definition categoryBreakdown_unguarded (rows : list Row) : list CategoryData :=
  let total := reduce_amounts rows in
  map (fun e => mkCategoryData (fst e) (snd e)
                  (Js.toFixed1 (Js.mul (Js.div (snd e) total) (Num 100%Q))))
      (categoryMap rows).

Record Summary : Type := mkSummary {
  total : number;
  count : nat;
  average : number
}.

(** Total, [rows.length] and [rows.length > 0 ? total / rows.length : 0]. *)
Definition summarize (rows : list Row) : Summary :=
  let total := reduce_amounts rows in
  mkSummary total (List.length rows)
    (if (0 <? List.length rows)%nat
     then Js.div total (Js.of_nat (List.length rows))
     else Num 0%Q).

Record State : Type := mkState {
  totalExpenses : number;
  totalIncome : number;
  avgTransaction : number;
  expenseCategoryData : list CategoryData;
  incomeCategoryData : list CategoryData;
  transactionCount : nat
}.

Definition initial : State := mkState (Num 0%Q) (Num 0%Q) (Num 0%Q) [] [] 0.

(** [incomes?.length || 0]. *)
Definition length_or_zero (d : option (list Row)) : nat :=
  match d with Some rows => List.length rows | None => 0%nat end.

(** The body of [fetchAnalytics] behind the two queries. *)
Definition process (expenses incomes : Store.Response) (st : State) : State :=
  if Store.error expenses || Store.error incomes then st
  else
    let st1 :=
      match Store.data expenses with
      | Some rows =>
          let s := summarize rows in
          mkState (total s) (totalIncome st) (average s)
            (categoryBreakdown rows) (incomeCategoryData st)
            (count s + length_or_zero (Store.data incomes))
      | None => st
      end in
    match Store.data incomes with
    | Some rows =>
        mkState (totalExpenses st1) (reduce_amounts rows) (avgTransaction st1)
          (expenseCategoryData st1) (categoryBreakdown rows)
          (transactionCount st1)
    | None => st1
    end.

(** The answer of a query that went through. *)
Definition fetched (rows : list Row) : Store.Response :=
  Store.mkResponse (Some rows) false.

Definition fetchAnalytics (now : Date) (db : Store.Db) (st : State) : State :=
  let firstDay := newDate (getFullYear now) (getMonth now) 1 in
  let lastDay := newDate (getFullYear now) (getMonth now + 1) 0 in
  process
    (Store.select_range (Store.from db Store.expenses) firstDay lastDay)
    (Store.select_range (Store.from db Store.incomes) firstDay lastDay)
    st.

(** [Number(s)] for a string [toFixed(1)] or the ["0"] branch can print:
    an optional sign, digits, and an optional point with one digit.  The
    result is in tenths; other strings have no reading. *)
Definition read_digits (s : string) : option Z :=
  option_map (fun u => Z.of_N (N.of_uint u)) (NilZero.uint_of_string s).

Fixpoint split_point (s : string) : string * option string :=
  match s with
  | EmptyString => (EmptyString, None)
  | String c s' =>
      if Ascii.eqb c "."%char then (EmptyString, Some s')
      else let (a, b) := split_point s' in (String c a, b)
  end.

Definition read_unsigned (s : string) : option Z :=
  match split_point s with
  | (a, None) => option_map (fun n => 10 * n) (read_digits a)
  | (a, Some b) =>
      match read_digits a, read_digits b with
      | Some n, Some d => if d <? 10 then Some (10 * n + d) else None
      | _, _ => None
      end
  end.

Definition read_tenths (s : string) : option Z :=
  match s with
  | String c s' =>
      if Ascii.eqb c "-"%char then option_map Z.opp (read_unsigned s')
      else read_unsigned s
  | EmptyString => None
  end.

(** The expenses of the worked example: 100 and 300 for food, 200 for
    transport. *)
Definition example_rows : list Row :=
  [mkRow "Lunch" 100 "Food" 0; mkRow "Dinner" 300 "Food" 0;
   mkRow "Bus" 200 "Transport" 0].

(** The amounts of the rows of category [c], summed. *)
Definition group_sum (rows : list Row) (c : string) : Q :=
  sum_amounts (filter (fun r => String.eqb (category r) c) rows).

(** Reading a map whose values are finite. *)
Definition qvalue (v : number) : Q :=
  match v with Num q => q | _ => 0%Q end.

Definition finite_map (m : CategoryMap) : Prop :=
  Forall (fun e => Js.is_finite (snd e) = true) m.

Definition lookupQ (m : CategoryMap) (k : string) : Q :=
  match get m k with Some v => qvalue v | None => 0%Q end.

Fixpoint map_sum (m : CategoryMap) : Q :=
  match m with
  | [] => 0%Q
  | e :: m' => (qvalue (snd e) + map_sum m')%Q
  end.

End Analytics.

(** ** Trends: the six month series *)

Module Trends.
Import Calendar DateFns.

Record MonthlyData : Type := mkMonthlyData {
  month : string;
  expenses : number;
  income : number;
  net : number
}.

(** One turn of the loop, for the month [i] months back. *)
Definition entry (now : Date) (db : Store.Db) (i : Z) : MonthlyData :=
  let date := subMonths now i in
  let firstDay := startOfMonth date in
  let lastDay := endOfMonth date in
  let expenses := Store.select_range (Store.from db Store.expenses) firstDay lastDay in
  let incomes := Store.select_range (Store.from db Store.incomes) firstDay lastDay in
  let expenseTotal := reduce_amounts (Store.or_empty (Store.data expenses)) in
  let incomeTotal := reduce_amounts (Store.or_empty (Store.data incomes)) in
  mkMonthlyData (formatMMM date) expenseTotal incomeTotal
    (Js.sub incomeTotal expenseTotal).

(** [for (let i = ...; i >= 0; i--) months.push(...)]. *)
Fixpoint loop (now : Date) (db : Store.Db) (i : nat) (months : list MonthlyData)
  : list MonthlyData :=
  let months' := months ++ [entry now db (Z.of_nat i)] in
  match i with
  | O => months'
  | S j => loop now db j months'
  end.

Definition fetchTrends (now : Date) (db : Store.Db) : list MonthlyData :=
  loop now db 5 [].

(** The rows of a table whose date lies in month [k] of local time. *)
Definition rows_in_month (k : Z) (rows : list Row) : list Row :=
  filter (fun r => inMonthb k (date r)) rows.

(** The label of month [k], counted from year 0. *)
Definition month_label (k : Z) : string :=
  formatMMM (mkDate (k / 12) (k mod 12) 1 0).

(** The entry [e] is the summary of month [k]: its label, the expenses and
    the incomes dated in that month, and their difference. *)
Definition covers (db : Store.Db) (e : MonthlyData) (k : Z) : Prop :=
  let spent := sum_amounts (rows_in_month k (Store.from db Store.expenses)) in
  let earned := sum_amounts (rows_in_month k (Store.from db Store.incomes)) in
  month e = month_label k
  /\ expenses e =n= Num spent
  /\ income e =n= Num earned
  /\ net e =n= Num (earned - spent).

End Trends.

(** ** Sample data *)

Module Sample.
Import Calendar.

(** Noon on 15 January 2024 and the afternoon of 31 March 2024. *)
Definition mid_january : Date := mkDate 2024 0 15 (12 * 3600000).
Definition end_of_march : Date := mkDate 2024 2 31 (15 * 3600000).

(** An expense the form dated 31 January 2024: it is stored at midnight UTC,
    which is 05:30 on that day where the clock is five and a half hours
    ahead. *)
Definition last_day_row : Row :=
  mkRow "Rent" 250 "Bills"
        (getTime (mkDate 2024 0 31 (5 * 3600000 + 30 * 60000))).

Definition salary_row : Row :=
  mkRow "Salary" 50000 "Salary" (getTime (mkDate 2024 0 1 (9 * 3600000))).

Definition db : Store.Db := Store.mkDb [last_day_row] [salary_row].

(** An income of minus five. *)
Definition negative_income : Row := mkRow "Refund" (- 5) "Other" 0.

End Sample.

(** ** Budgets: the table, the settings form and the query of the home page *)

Module Budgets.
Import Calendar.

(** A row of [public.budgets]; [budget_month] is the [DATE] column, always
    the first of a month, kept as the year and the month. *)
Record BudgetRow : Type := mkBudgetRow {
  budget_id : string;
  budget_month : Z * Z;
  budget_amount : Q
}.

(** [format(new Date(), "yyyy-MM-01")]. *)
Definition monthKey (d : Date) : Z * Z := (getFullYear d, getMonth d).

Definition key_eqb (a b : Z * Z) : bool :=
  (fst a =? fst b) && (snd a =? snd b).

(** What [maybeSingle()] answers: no row, the row, or an error when several
    rows match. *)
Record Single : Type := mkSingle {
  row : option BudgetRow;
  failed : bool
}.

Definition maybeSingle (rows : list BudgetRow) : Single :=
  match rows with
  | [] => mkSingle None false
  | [r] => mkSingle (Some r) false
  | _ => mkSingle None true
  end.

(** [from("budgets").select(...).eq("month", key).maybeSingle()]. *)
Definition select_month (tbl : list BudgetRow) (key : Z * Z) : Single :=
  maybeSingle (filter (fun r => key_eqb (budget_month r) key) tbl).

(** [insert([{ month, amount }])] under the constraints of the migration:
    the primary key, [UNIQUE(user_id, month)], [CHECK (amount > 0)] and
    [NOT NULL], which refuses the [null] that JSON writes for [NaN] and the
    infinities. *)
Definition insert (tbl : list BudgetRow) (id : string) (key : Z * Z)
           (a : number) : option (list BudgetRow) :=
  match a with
  | Num q =>
      if Js.Qlt_bool 0 q
         && negb (existsb (fun r => key_eqb (budget_month r) key) tbl)
         && negb (existsb (fun r => String.eqb (budget_id r) id) tbl)
      then Some (tbl ++ [mkBudgetRow id key q])
      else None
  | _ => None
  end.

(** [update({ amount }).eq("id", id)]. *)
Definition update (tbl : list BudgetRow) (id : string) (a : number)
  : option (list BudgetRow) :=
  if existsb (fun r => String.eqb (budget_id r) id) tbl
  then
    match a with
    | Num q =>
        if Js.Qlt_bool 0 q
        then Some (map (fun r => if String.eqb (budget_id r) id
                                 then mkBudgetRow (budget_id r) (budget_month r) q
                                 else r) tbl)
        else None
    | _ => None
    end
  else Some tbl.

Inductive Toast : Type :=
| toast_error (message : string)
| toast_success (message : string).

(** [handleSaveBudget] of the settings page; [budgetAmount] is
    [Number(budget)] and [fresh] the key the store draws for a new row. *)
Definition handleSaveBudget (now : Date) (budgetAmount : number)
           (fresh : string) (tbl : list BudgetRow)
  : list BudgetRow * Toast :=
  if Js.ge (Num 0) budgetAmount
  then (tbl, toast_error "Budget must be greater than 0")
  else
    let currentMonth := monthKey now in
    let existing := row (select_month tbl currentMonth) in
    let result :=
      match existing with
      | Some e => update tbl (budget_id e) budgetAmount
      | None => insert tbl fresh currentMonth budgetAmount
      end in
    match result with
    | Some tbl' => (tbl', toast_success "Budget saved successfully!")
    | None => (tbl, toast_error "Failed to save budget")
    end.

(** [fetchBudget] of the home page, with its query. *)
Definition loadBudget (now : Date) (tbl : list BudgetRow) (st : Home.State)
  : Home.State :=
  let resp := select_month tbl (monthKey now) in
  if failed resp then st
  else Home.fetchBudget (option_map budget_amount (row resp)) st.

(** The constraints the table keeps: one row per key, one row per month,
    positive amounts. *)
Definition well_formed (tbl : list BudgetRow) : Prop :=
  NoDup (map budget_id tbl)
  /\ NoDup (map budget_month tbl)
  /\ Forall (fun r => (0 < budget_amount r)%Q) tbl.

(** The budget stored for a month, if any. *)
Definition stored (tbl : list BudgetRow) (key : Z * Z) : option Q :=
  option_map budget_amount
    (find (fun r => key_eqb (budget_month r) key) tbl).

End Budgets.

(** ** What the pages show *)

Module Page.

(** [a === b] on numbers. *)
Definition strict_eq (a b : number) : bool :=
  match a, b with
  | Num x, Num y => Qeq_bool x y
  | Infinity s, Infinity s' => Bool.eqb s s'
  | _, _ => false
  end.

(** Analytics: [totalIncome === 0 && totalExpenses === 0] puts the text
    "No data available" in place of the comparison chart. *)
Definition noComparisonData (st : Analytics.State) : bool :=
  strict_eq (Analytics.totalIncome st) (Num 0)
  && strict_eq (Analytics.totalExpenses st) (Num 0).

(** Trends: [monthlyData.some((d) => d.expenses > 0 || d.income > 0)]. *)
Definition hasData (months : list Trends.MonthlyData) : bool :=
  existsb (fun d => Js.gt (Trends.expenses d) (Num 0)
                    || Js.gt (Trends.income d) (Num 0)) months.

(** The instants the six queries of the trends page cover together. *)
Definition inWindow (now : Calendar.Date) (t : Z) : bool :=
  (Calendar.newDate 0 (Calendar.monthIndex now - 5) 1 <=? t)
  && (t <? Calendar.newDate 0 (Calendar.monthIndex now + 1) 1).

(** The expense totals of a series, added up. *)
Definition sum_expenses (months : list Trends.MonthlyData) : number :=
  fold_left (fun s d => Js.add s (Trends.expenses d)) months (Num 0).

(** The categories of a list of rows, each at its first occurrence. *)
Fixpoint first_occurrences (l : list string) : list string :=
  match l with
  | [] => []
  | c :: l' => c :: filter (fun x => negb (String.eqb c x)) (first_occurrences l')
  end.

End Page.

(** ** Adding and deleting an expense on the home page *)

Module Actions.
Import Calendar.

Record Ui : Type := mkUi {
  state : Home.State;
  dialogOpen : bool;
  editingExpense : option string
}.

(** The tables as the queries of the page see them. *)
Definition db_of (tbl : list Store.Stored) : Store.Db :=
  Store.mkDb (map snd tbl) [].

(** [handleSubmit]; [expenseData] holds [Number(formData.amount)] and the
    instant of [new Date(formData.date)], and [fresh] is the key the store
    draws for a new row. *)
Definition handleSubmit (now : Date) (fresh : string) (expenseData : Row)
           (tbl : list Store.Stored) (ui : Ui)
  : list Store.Stored * Ui * Budgets.Toast :=
  let finish tbl' message :=
    (tbl',
     mkUi (Home.fetchExpenses now (db_of tbl') (state ui)) false None,
     Budgets.toast_success message) in
  match editingExpense ui with
  | Some id =>
      match Store.update Store.expenses tbl id expenseData with
      | None => (tbl, ui, Budgets.toast_error "Failed to update expense")
      | Some tbl' => finish tbl' "Expense updated!"%string
      end
  | None =>
      match Store.insert Store.expenses tbl fresh expenseData with
      | None => (tbl, ui, Budgets.toast_error "Failed to add expense")
      | Some tbl' => finish tbl' "Expense added!"%string
      end
  end.

(** [handleDelete]. *)
Definition handleDelete (now : Date) (id : string)
           (tbl : list Store.Stored) (ui : Ui)
  : list Store.Stored * Ui * Budgets.Toast :=
  let tbl' := Store.delete tbl id in
  (tbl',
   mkUi (Home.fetchExpenses now (db_of tbl') (state ui))
        (dialogOpen ui) (editingExpense ui),
   Budgets.toast_success "Expense deleted!").

(** The rows the query of the home page asks for. *)
Definition in_home_range (now : Date) (r : Row) : bool :=
  (newDate (getFullYear now) (getMonth now) 1 <=? date r)
  && (date r <=? newDate (getFullYear now) (getMonth now + 1) 0).

(** The order of the list: no row is older than the one after it. *)
Definition newer_first (a b : Row) : Prop := date b <= date a.

End Actions.

(** ** Numbers as the pages compute them: binary64 *)

Module Ieee.

Definition prec : Z := 53.
Definition emax : Z := 1024.

(** A JavaScript number as an IEEE 754 double: signed zeros, infinities,
    [NaN], and the finite values [m * 2 ^ e] with a 53 bit mantissa. *)
Definition double : Type := spec_float.

Definition zero : double := S754_zero false.

(** The four operations, each rounded to the nearest double, ties to even. *)
Definition add : double -> double -> double := SFadd prec emax.
Definition sub : double -> double -> double := SFsub prec emax.
Definition mul : double -> double -> double := SFmul prec emax.
Definition div : double -> double -> double := SFdiv prec emax.

(** [a > b] and [a >= b]; false whenever one side is [NaN]. *)
Definition gt (a b : double) : bool := SFltb b a.
Definition ge (a b : double) : bool := SFleb b a.

(** Truthiness, and [a || 0]: both zeros and [NaN] are falsy. *)
Definition truthy (a : double) : bool :=
  match a with
  | S754_zero _ | S754_nan => false
  | _ => true
  end.

Definition or_zero (a : double) : double := if truthy a then a else zero.

(** The double nearest to a rational: what a decimal literal of the JSON
    answer, or of the source, denotes.  One division of the two integers,
    rounded once. *)
Definition of_Q (q : Q) : double :=
  let quotient (sign : bool) (n : positive) :=
    let '(m, e, l) :=
      SFdiv_core_binary prec emax (Zpos n) 0 (Zpos (Qden q)) 0 in
    binary_round_aux prec emax sign m e l in
  match Qnum q with
  | Z0 => zero
  | Zpos n => quotient false n
  | Zneg n => quotient true n
  end.

Definition is_nan (a : double) : bool :=
  match a with S754_nan => true | _ => false end.

(** Zero or finite: neither [NaN] nor an infinity. *)
Definition is_finite (a : double) : bool :=
  match a with
  | S754_zero _ | S754_finite _ _ _ => true
  | _ => false
  end.

(** The rational a finite double stands for (0 for the others). *)
Definition value (a : double) : Q :=
  match a with
  | S754_finite s m e =>
      ((if s then - 1 else 1) * inject_Z (Zpos m) * 2 ^ e)%Q
  | _ => 0%Q
  end.

(** What [toFixed(1)] returns: digits, or for magnitudes of 10^21 and more
    the exponent notation of the number, which is not rendered here. *)
Inductive printed : Type :=
| Text (s : string)
| Exponential (a : double).

(** [toFixed(1)] rounds the exact value of the double to the nearest tenth,
    upwards on a tie. *)
Definition toFixed1 (a : double) : printed :=
  match a with
  | S754_nan => Text "NaN"
  | S754_infinity false => Text "Infinity"
  | S754_infinity true => Text "-Infinity"
  | _ =>
      if Qle_bool (10 ^ 21) (Qabs (value a)) then Exponential a
      else Text (Js.toFixed1 (Num (value a)))
  end.

End Ieee.

(** ** Grouping by category, for any kind of number *)

Module Grouping.

Section Grouping.
Variable N : Type.
Variable add : N -> N -> N.
Variable or_zero : N -> N.
Variable zero : N.
Variable amount_of : Row -> N.

(** [Map<string, number>], entries in insertion order. *)
Fixpoint get (m : list (string * N)) (k : string) : option N :=
  match m with
  | [] => None
  | (k', v) :: m' => if String.eqb k' k then Some v else get m' k
  end.

Fixpoint set (m : list (string * N)) (k : string) (v : N) : list (string * N) :=
  match m with
  | [] => [(k, v)]
  | (k', v') :: m' =>
      if String.eqb k' k then (k', v) :: m' else (k', v') :: set m' k v
  end.

(** [categoryMap.get(c) || 0]. *)
Definition current (m : list (string * N)) (c : string) : N :=
  match get m c with
  | Some v => or_zero v
  | None => zero
  end.

(** One turn of the [forEach]. *)
Definition step (m : list (string * N)) (r : Row) : list (string * N) :=
  set m (category r) (add (current m (category r)) (amount_of r)).

Definition categoryMap (rows : list Row) : list (string * N) :=
  fold_left step rows [].

(** [rows.reduce((sum, r) => sum + Number(r.amount), 0)]. *)
Definition reduce (rows : list Row) : N :=
  fold_left (fun sum r => add sum (amount_of r)) rows zero.

(** The rows of one category, in the order of the list. *)
Definition group (rows : list Row) (c : string) : list Row :=
  filter (fun r => String.eqb (category r) c) rows.

(** The amounts of some rows added one after the other the way the map
    adds them: [(sum || 0) + amount]. *)
Definition running (rows : list Row) : N :=
  fold_left (fun sum r => add (or_zero sum) (amount_of r)) rows zero.

End Grouping.

End Grouping.

(** ** The analytics page on doubles *)

Module Analytics64.

Record CategoryData : Type := mkCategoryData {
  name : string;
  value : Ieee.double;
  percentage : Ieee.printed
}.

(** [Number(row.amount)]: the amount as the double the page holds. *)
Definition Number (r : Row) : Ieee.double := Ieee.of_Q (amount r).

Definition total (rows : list Row) : Ieee.double :=
  Grouping.reduce Ieee.double Ieee.add Ieee.zero Number rows.

Definition categoryMap (rows : list Row) : list (string * Ieee.double) :=
  Grouping.categoryMap Ieee.double Ieee.add Ieee.or_zero Ieee.zero Number rows.

(** The sum of the rows of one category as the map builds it. *)
Definition group_sum (rows : list Row) (c : string) : Ieee.double :=
  Grouping.running Ieee.double Ieee.add Ieee.or_zero Ieee.zero Number
    (Grouping.group rows c).

(** [total > 0 ? ((value / total) * 100).toFixed(1) : "0"]. *)
Definition share (total v : Ieee.double) : Ieee.printed :=
  if Ieee.gt total Ieee.zero
  then Ieee.toFixed1 (Ieee.mul (Ieee.div v total) (Ieee.of_Q 100))
  else Ieee.Text "0".

Definition categoryBreakdown (rows : list Row) : list CategoryData :=
  map (fun e => mkCategoryData (fst e) (snd e) (share (total rows) (snd e)))
      (categoryMap rows).

(** The group amounts added up from 0, in the order of the breakdown. *)
Definition sum_values (l : list CategoryData) : Ieee.double :=
  fold_left (fun s c => Ieee.add s (value c)) l Ieee.zero.

(** The printed percentages added up, in tenths of a percent. *)
Fixpoint sum_printed (l : list CategoryData) : option Z :=
  match l with
  | [] => Some 0
  | c :: l' =>
      match percentage c, sum_printed l' with
      | Ieee.Text s, Some t =>
          option_map (fun p => p + t) (Analytics.read_tenths s)
      | _, _ => None
      end
  end.

(** 23 for food and 57 for transport. *)
Definition rows_23_57 : list Row :=
  [mkRow "Lunch" 23 "Food" 0; mkRow "Bus" 57 "Transport" 0].

(** 0.10 for food, 0.10 for bills, 0.40 for food. *)
Definition rows_regrouped : list Row :=
  [mkRow "Snack" (1 # 10) "Food" 0; mkRow "Stamp" (1 # 10) "Bills" 0;
   mkRow "Coffee" (4 # 10) "Food" 0].

(** Incomes of 0.10 and 0.20 and a correction of -0.30, which the incomes
    table accepts. *)
Definition incomes_cancelling : list Row :=
  [mkRow "Interest" (1 # 10) "Investment" 0; mkRow "Tip" (2 # 10) "Gift" 0;
   mkRow "Correction" (- (3 # 10)) "Other" 0].

End Analytics64.

(** ** The budget card on doubles *)

Module Home64.

(** [setBudget(data?.amount || 0)]. *)
Definition fetchBudget (row : option Q) : Ieee.double :=
  match row with
  | Some a => Ieee.or_zero (Ieee.of_Q a)
  | None => Ieee.zero
  end.

(** [budget > 0 ? (totalSpent / budget) * 100 : 0]. *)
Definition budgetPercentage (totalSpent budget : Ieee.double) : Ieee.double :=
  if Ieee.gt budget Ieee.zero
  then Ieee.mul (Ieee.div totalSpent budget) (Ieee.of_Q 100)
  else Ieee.zero.

(** [budget - totalSpent]. *)
Definition remaining (totalSpent budget : Ieee.double) : Ieee.double :=
  Ieee.sub budget totalSpent.

(** The banner under the progress bar. *)
Definition banner (pct : Ieee.double) : option string :=
  if Ieee.ge pct (Ieee.of_Q 90)
  then Some (if Ieee.ge pct (Ieee.of_Q 100)
             then "Budget exceeded!"%string
             else "Approaching budget limit"%string)
  else None.

End Home64.

(** * Properties *)

(** ** Numbers *)

Section NumberFacts.

Lemma Qlt_bool_iff (x y : Q) : Js.Qlt_bool x y = true <-> (x < y)%Q.
Proof.
  unfold Js.Qlt_bool. rewrite negb_true_iff.
  split; intro H.
  - apply Qnot_le_lt. intro Hle. apply Qle_bool_iff in Hle. congruence.
  - destruct (Qle_bool y x) eqn:E; [|reflexivity].
    apply Qle_bool_iff in E. lra.
Qed.

Lemma Qlt_bool_false_iff (x y : Q) : Js.Qlt_bool x y = false <-> (y <= x)%Q.
Proof.
  unfold Js.Qlt_bool. rewrite negb_false_iff. apply Qle_bool_iff.
Qed.

Lemma Qeq_bool_false_iff (x y : Q) : Qeq_bool x y = false <-> ~ (x == y)%Q.
Proof.
  split; intro H.
  - intro E. apply Qeq_bool_iff in E. congruence.
  - destruct (Qeq_bool x y) eqn:E; [|reflexivity].
    apply Qeq_bool_iff in E. contradiction.
Qed.

Lemma eqn_refl (a : number) : a =n= a.
Proof. destruct a; simpl; reflexivity. Qed.

Lemma eqn_sym (a b : number) : a =n= b -> b =n= a.
Proof. destruct a, b; simpl; intros H; try contradiction; auto. symmetry; exact H. Qed.

Lemma eqn_trans (a b c : number) : a =n= b -> b =n= c -> a =n= c.
Proof.
  destruct a, b, c; simpl; intros H1 H2; try contradiction; auto.
  - rewrite H1. exact H2.
  - congruence.
Qed.

Lemma eqn_Num_inv (a : number) (q : Q) :
  a =n= Num q -> exists p, a = Num p /\ (p == q)%Q.
Proof. destruct a; simpl; intro H; try contradiction. eauto. Qed.

(** The reduction of finitely many finite amounts is their sum. *)
Lemma fold_add_Num (rows : list Row) (a : Q) :
  fold_left (fun sum r => Js.add sum (Number r)) rows (Num a)
  =n= Num (a + sum_amounts rows).
Proof.
  revert a. induction rows as [|r rows IH]; intro a; simpl.
  - lra.
  - eapply eqn_trans; [apply IH|]. simpl. lra.
Qed.

Lemma reduce_amounts_sum (rows : list Row) :
  reduce_amounts rows =n= Num (sum_amounts rows).
Proof.
  unfold reduce_amounts. eapply eqn_trans; [apply fold_add_Num|]. simpl. lra.
Qed.

Lemma sum_amounts_app (l1 l2 : list Row) :
  (sum_amounts (l1 ++ l2) == sum_amounts l1 + sum_amounts l2)%Q.
Proof. induction l1 as [|r l1 IH]; simpl; [|rewrite IH]; lra. Qed.

End NumberFacts.

#[local] Hint Resolve eqn_refl : core.

(** ** Summary of a list of rows *)

Section SummaryFacts.

Lemma of_nat_nonzero (n : nat) :
  (0 < n)%nat -> Qeq_bool (inject_Z (Z.of_nat n)) 0 = false.
Proof.
  intro H. apply Qeq_bool_false_iff. intro E.
  assert (Hz : (0 < inject_Z (Z.of_nat n))%Q).
  { change 0%Q with (inject_Z 0). rewrite <- Zlt_Qlt. lia. }
  lra.
Qed.

Lemma div_by_length (t : number) (q : Q) (n : nat) :
  t =n= Num q -> (0 < n)%nat ->
  Js.div t (Js.of_nat n) =n= Num (q / inject_Z (Z.of_nat n)).
Proof.
  intros Ht Hn. apply eqn_Num_inv in Ht as (p & -> & Hp).
  unfold Js.of_nat, Js.div. rewrite (of_nat_nonzero n Hn).
  simpl. rewrite Hp. reflexivity.
Qed.

Lemma summarize_average (rows : list Row) :
  Analytics.average (Analytics.summarize rows)
  =n= (if (0 <? List.length rows)%nat
       then Num (sum_amounts rows / inject_Z (Z.of_nat (List.length rows)))
       else Num 0%Q).
Proof.
  unfold Analytics.summarize. cbn [Analytics.average].
  destruct (0 <? List.length rows)%nat eqn:E.
  - apply Nat.ltb_lt in E.
    apply div_by_length; [apply reduce_amounts_sum | exact E].
  - apply eqn_refl.
Qed.


End SummaryFacts.

(** ** The budget card *)

Section BudgetFacts.

Lemma budgetPercentage_finite (spent budget : Q) :
  Home.budgetPercentage (Num spent) (Num budget)
  =n= (if Qle_bool budget 0 then Num 0%Q else Num (100 * spent / budget)).
Proof.
  unfold Home.budgetPercentage, Js.gt, Js.Qlt_bool.
  destruct (Qle_bool budget 0) eqn:E; simpl.
  - reflexivity.
  - assert (Hb : (0 < budget)%Q).
    { apply Qnot_le_lt. intro H. apply Qle_bool_iff in H. congruence. }
    replace (Qeq_bool budget 0) with false.
    + simpl. field. lra.
    + symmetry. apply Qeq_bool_false_iff. lra.
Qed.

Lemma budgetPercentage_is_Num (spent budget : Q) :
  exists p, Home.budgetPercentage (Num spent) (Num budget) = Num p.
Proof.
  pose proof (budgetPercentage_finite spent budget) as H.
  destruct (Qle_bool budget 0); apply eqn_Num_inv in H as (p & Hp & _); eauto.
Qed.

Lemma Qle_bool_false_iff (x y : Q) : Qle_bool x y = false <-> (y < x)%Q.
Proof.
  split; intro H.
  - apply Qnot_le_lt. intro Hc. apply Qle_bool_iff in Hc. congruence.
  - destruct (Qle_bool x y) eqn:E; [|reflexivity].
    apply Qle_bool_iff in E. lra.
Qed.

Lemma banner_approaching (p : Q) :
  Home.shows (Home.banner (Num p)) "Approaching budget limit" = true
  <-> (90 <= p /\ p < 100)%Q.
Proof.
  unfold Home.banner, Js.ge.
  destruct (Qle_bool 90 p) eqn:E1; destruct (Qle_bool 100 p) eqn:E2; simpl.
  all: rewrite ?Qle_bool_iff, ?Qle_bool_false_iff in *.
  all: split; [intro H; try discriminate; lra | intro H; try reflexivity; lra].
Qed.

Lemma banner_exceeded (p : Q) :
  Home.shows (Home.banner (Num p)) "Budget exceeded!" = true <-> (100 <= p)%Q.
Proof.
  unfold Home.banner, Js.ge.
  destruct (Qle_bool 90 p) eqn:E1; destruct (Qle_bool 100 p) eqn:E2; simpl.
  all: rewrite ?Qle_bool_iff, ?Qle_bool_false_iff in *.
  all: split; [intro H; try discriminate; lra | intro H; try reflexivity; lra].
Qed.


End BudgetFacts.

(** ** The category map *)

Section CategoryMapFacts.
Import Analytics.

Lemma get_set_same (m : CategoryMap) (k : string) (v : number) :
  get (set m k v) k = Some v.
Proof.
  induction m as [|[k' v'] m IH]; simpl.
  - rewrite String.eqb_refl. reflexivity.
  - destruct (String.eqb k' k) eqn:E; simpl; rewrite E; auto.
Qed.

Lemma get_set_other (m : CategoryMap) (k k' : string) (v : number) :
  k <> k' -> get (set m k v) k' = get m k'.
Proof.
  intro Hne. induction m as [|[k0 v0] m IH]; simpl.
  - destruct (String.eqb k k') eqn:E; [apply String.eqb_eq in E; contradiction | reflexivity].
  - destruct (String.eqb k0 k) eqn:E; simpl.
    + apply String.eqb_eq in E. subst k0.
      destruct (String.eqb k k') eqn:E'; [apply String.eqb_eq in E'; contradiction | reflexivity].
    + destruct (String.eqb k0 k'); auto.
Qed.

Lemma keys_set (m : CategoryMap) (k : string) (v : number) :
  map fst (set m k v)
  = if existsb (String.eqb k) (map fst m) then map fst m else map fst m ++ [k].
Proof.
  induction m as [|[k' v'] m IH]; simpl; [reflexivity|].
  rewrite (String.eqb_sym k k').
  destruct (String.eqb k' k) eqn:E; simpl; [reflexivity|].
  rewrite IH. destruct (existsb (String.eqb k) (map fst m)); reflexivity.
Qed.

Lemma NoDup_keys_set (m : CategoryMap) (k : string) (v : number) :
  NoDup (map fst m) -> NoDup (map fst (set m k v)).
Proof.
  intro H. rewrite keys_set.
  destruct (existsb (String.eqb k) (map fst m)) eqn:E; [exact H|].
  apply NoDup_app; [exact H | repeat constructor; intros [] | ].
  intros x Hx [Hk|[]]. subst x.
  assert (existsb (String.eqb k) (map fst m) = true).
  { apply existsb_exists. exists k. split; [exact Hx | apply String.eqb_refl]. }
  congruence.
Qed.

Lemma finite_get (m : CategoryMap) (k : string) (v : number) :
  finite_map m -> get m k = Some v -> Js.is_finite v = true.
Proof.
  induction 1 as [|[k' v'] m Hv Hm IH]; simpl; [discriminate|].
  destruct (String.eqb k' k); [intros [= <-]; exact Hv | exact IH].
Qed.

Lemma finite_set (m : CategoryMap) (k : string) (v : number) :
  finite_map m -> Js.is_finite v = true -> finite_map (set m k v).
Proof.
  intros Hm Hv. induction Hm as [|[k' v'] m Hv' Hm IH]; simpl.
  - repeat constructor. exact Hv.
  - destruct (String.eqb k' k); constructor; auto.
Qed.

Lemma In_get (m : CategoryMap) (k : string) (v : number) :
  NoDup (map fst m) -> In (k, v) m -> get m k = Some v.
Proof.
  induction m as [|[k' v'] m IH]; simpl; [intros _ []|].
  intros Hnd [[= -> ->]|Hin].
  - rewrite String.eqb_refl. reflexivity.
  - inversion Hnd as [|? ? Hnot Hnd']; subst.
    destruct (String.eqb k' k) eqn:E; [|auto].
    apply String.eqb_eq in E. subst k'.
    exfalso. apply Hnot. apply (in_map fst) in Hin. exact Hin.
Qed.

(** [get(c) || 0] reads the running sum of the category. *)
Lemma current_lookup (m : CategoryMap) (k : string) :
  finite_map m -> exists q, current m k = Num q /\ (q == lookupQ m k)%Q.
Proof.
  intro Hm. unfold current, lookupQ.
  destruct (get m k) as [v|] eqn:E.
  - pose proof (finite_get m k v Hm E) as Hv.
    destruct v as [q| |]; try discriminate. unfold Js.or_zero, Js.truthy.
    destruct (Qeq_bool q 0) eqn:Eq; simpl.
    + apply Qeq_bool_iff in Eq. exists 0%Q. split; [reflexivity | symmetry; exact Eq].
    + exists q. split; reflexivity.
  - exists 0%Q. split; reflexivity.
Qed.

Lemma map_sum_set (m : CategoryMap) (k : string) (q : Q) :
  (map_sum (set m k (Num q)) == map_sum m - lookupQ m k + q)%Q.
Proof.
  unfold lookupQ. induction m as [|[k' v'] m IH]; simpl.
  - lra.
  - destruct (String.eqb k' k); simpl; [|rewrite IH]; lra.
Qed.

Lemma lookupQ_set (m : CategoryMap) (k k' : string) (q : Q) :
  lookupQ (set m k (Num q)) k'
  = if String.eqb k k' then q else lookupQ m k'.
Proof.
  unfold lookupQ. destruct (String.eqb k k') eqn:E.
  - apply String.eqb_eq in E. subst k'. rewrite get_set_same. reflexivity.
  - rewrite get_set_other; [reflexivity|].
    intro H. subst k'. rewrite String.eqb_refl in E. discriminate.
Qed.

(** The loop invariant of the [forEach]. *)
Lemma categoryMap_fold (rows : list Row) (m : CategoryMap) :
  finite_map m -> NoDup (map fst m) ->
  let m' := fold_left
              (fun m r => set m (category r)
                            (Js.add (current m (category r)) (Number r)))
              rows m in
  finite_map m' /\ NoDup (map fst m')
  /\ (map_sum m' == map_sum m + sum_amounts rows)%Q
  /\ (forall k, lookupQ m' k == lookupQ m k + group_sum rows k)%Q.
Proof.
  revert m. induction rows as [|r rows IH]; intros m Hm Hnd; cbn zeta.
  - simpl. repeat split; auto; try intro k; unfold group_sum; simpl; lra.
  - cbn [fold_left].
    destruct (current_lookup m (category r) Hm) as (q & Hq & Hqe).
    rewrite Hq. cbn [Number Js.add].
    specialize (IH (set m (category r) (Num (q + amount r)))
                  (finite_set m _ (Num (q + amount r)) Hm eq_refl)
                  (NoDup_keys_set _ _ _ Hnd)).
    cbn zeta in IH. destruct IH as (Hf & Hn & Hs & Hl).
    split; [exact Hf|]. split; [exact Hn|]. split.
    + rewrite Hs, map_sum_set, Hqe. simpl. lra.
    + intro k. rewrite Hl, lookupQ_set. unfold group_sum. simpl.
      destruct (String.eqb (category r) k) eqn:E; simpl.
      * apply String.eqb_eq in E. subst k. rewrite Hqe. lra.
      * lra.
Qed.

Lemma categoryMap_spec (rows : list Row) :
  finite_map (categoryMap rows) /\ NoDup (map fst (categoryMap rows))
  /\ (map_sum (categoryMap rows) == sum_amounts rows)%Q
  /\ (forall k, lookupQ (categoryMap rows) k == group_sum rows k)%Q.
Proof.
  destruct (categoryMap_fold rows [] (Forall_nil _) (NoDup_nil _))
    as (Hf & Hn & Hs & Hl).
  repeat split; auto.
  - rewrite Hs. simpl. lra.
  - intro k. rewrite Hl. unfold lookupQ. simpl. lra.
Qed.

(** Every entry of the map holds the finite sum of its category. *)
Lemma categoryMap_entry (rows : list Row) (k : string) (v : number) :
  In (k, v) (categoryMap rows) ->
  exists q, v = Num q /\ (q == group_sum rows k)%Q.
Proof.
  intro Hin. destruct (categoryMap_spec rows) as (Hf & Hn & _ & Hl).
  pose proof (In_get _ _ _ Hn Hin) as Hg.
  pose proof (finite_get _ _ _ Hf Hg) as Hv.
  destruct v as [q| |]; try discriminate.
  exists q. split; [reflexivity|].
  rewrite <- Hl. unfold lookupQ. rewrite Hg. reflexivity.
Qed.

End CategoryMapFacts.

(** ** Printing with one decimal *)

Section ToFixedFacts.
Import Analytics.

Lemma tenths_nonneg (q : Q) : 0 <= Js.tenths q.
Proof.
  unfold Js.tenths.
  change 0 with (Qfloor 0). apply Qfloor_resp_le.
  pose proof (Qabs_nonneg q). lra.
Qed.

Lemma Qlt_bool_wd (x y z : Q) : (x == y)%Q -> Js.Qlt_bool x z = Js.Qlt_bool y z.
Proof.
  intro H. destruct (Js.Qlt_bool y z) eqn:E.
  - apply Qlt_bool_iff. apply Qlt_bool_iff in E. lra.
  - apply Qlt_bool_false_iff. apply Qlt_bool_false_iff in E. lra.
Qed.

Lemma tenths_wd (x y : Q) : (x == y)%Q -> Js.tenths x = Js.tenths y.
Proof.
  intro H. unfold Js.tenths. apply Qfloor_comp. rewrite H. reflexivity.
Qed.

Lemma toFixed1_wd (x y : Q) :
  (x == y)%Q -> Js.toFixed1 (Num x) = Js.toFixed1 (Num y).
Proof.
  intro H. unfold Js.toFixed1.
  rewrite (Qlt_bool_wd x y 0 H), (tenths_wd x y H). reflexivity.
Qed.

Lemma plain_string_of_uint (d : Decimal.uint) :
  Js.plain (NilEmpty.string_of_uint d).
Proof. induction d; simpl; auto. Qed.

Lemma plain_digits (n : Z) : Js.plain (Js.digits n) /\ Js.digits n <> EmptyString.
Proof.
  unfold Js.digits, NilZero.string_of_uint.
  destruct (N.to_uint (Z.to_N n)) eqn:E.
  1: split; [simpl; auto | discriminate].
  all: split; [apply plain_string_of_uint | discriminate].
Qed.

Lemma read_digits_digits (n : Z) : 0 <= n -> read_digits (Js.digits n) = Some n.
Proof.
  intro Hn. unfold read_digits, Js.digits.
  pose proof (DecimalN.Unsigned.of_to (Z.to_N n)) as Hof.
  destruct (N.to_uint (Z.to_N n)) eqn:E.
  1: { simpl. simpl in Hof. rewrite <- Hof in *. f_equal. lia. }
  all: rewrite NilZero.usu by discriminate; cbn [option_map];
    rewrite Hof; f_equal; lia.
Qed.

Lemma split_point_plain (a b : string) :
  Js.plain a -> split_point (a ++ String "."%char b) = (a, Some b).
Proof.
  induction a as [|c a IH]; simpl.
  - reflexivity.
  - intros (Hc & _ & Ha). rewrite Hc, (IH Ha). reflexivity.
Qed.

Lemma read_unsigned_print (n : Z) :
  0 <= n ->
  read_unsigned (Js.digits (n / 10) ++ String "."%char (Js.digits (n mod 10)))
  = Some n.
Proof.
  intro Hn. unfold read_unsigned.
  rewrite split_point_plain by apply plain_digits.
  rewrite !read_digits_digits by (try apply Z.div_pos; try apply Z.mod_pos_bound; lia).
  pose proof (Z.mod_pos_bound n 10 ltac:(lia)) as Hm.
  replace (n mod 10 <? 10) with true by (symmetry; apply Z.ltb_lt; lia).
  f_equal. pose proof (Z.div_mod n 10 ltac:(lia)). lia.
Qed.

(** Reading back what [toFixed(1)] prints gives the rounded number. *)
Lemma read_toFixed1 (q : Q) :
  read_tenths (Js.toFixed1 (Num q)) = Some (Js.rounded_tenths q).
Proof.
  unfold Js.toFixed1, Js.rounded_tenths. cbv zeta.
  pose proof (tenths_nonneg q) as Hn.
  destruct (Js.Qlt_bool q 0).
  - cbn [append read_tenths]. rewrite Ascii.eqb_refl.
    change ("."%string ++ ?x)%string with (String "."%char x).
    rewrite read_unsigned_print by exact Hn. reflexivity.
  - cbn [append].
    change ("."%string ++ ?x)%string with (String "."%char x).
    destruct (plain_digits (Js.tenths q / 10)) as [Hp Hne].
    pose proof (read_unsigned_print (Js.tenths q) Hn) as Hr.
    destruct (Js.digits (Js.tenths q / 10)) as [|c s'] eqn:E; [contradiction|].
    destruct Hp as (_ & Hc & _).
    cbn [append read_tenths] in *. rewrite Hc. exact Hr.
Qed.

Lemma read_zero : read_tenths "0" = Some 0.
Proof. reflexivity. Qed.

End ToFixedFacts.

(** ** Percentage shares *)

Section ShareFacts.
Import Analytics.

Lemma share_positive (t g : Q) :
  (0 < t)%Q ->
  share (Num t) (Num g) = Js.toFixed1 (Num (100 * g / t)).
Proof.
  intro Ht. unfold share, Js.gt.
  replace (Js.Qlt_bool 0 t) with true by (symmetry; apply Qlt_bool_iff; exact Ht).
  unfold Js.div. replace (Qeq_bool t 0) with false
    by (symmetry; apply Qeq_bool_false_iff; lra).
  cbn [Js.mul]. apply toFixed1_wd. field. lra.
Qed.

Lemma share_not_positive (t : Q) (v : number) :
  (t <= 0)%Q -> share (Num t) v = "0"%string.
Proof.
  intro Ht. unfold share, Js.gt.
  replace (Js.Qlt_bool 0 t) with false
    by (symmetry; apply Qlt_bool_false_iff; exact Ht).
  reflexivity.
Qed.

End ShareFacts.

(** ** The calendar *)

Section CalendarFacts.
Import Calendar DateFns.

Lemma floor_step (a b c : Z) :
  0 < c ->
  (a + 1 - b) / c - (a - b) / c = if (a + 1 - b) mod c =? 0 then 1 else 0.
Proof.
  intro Hc. destruct (Z.eqb_spec ((a + 1 - b) mod c) 0) as [E|E];
    Z.div_mod_to_equations; nia.
Qed.

(** A year has 365 days, and one more when it is a leap year. *)
Lemma year_length (y : Z) :
  DayFromYear (y + 1) - DayFromYear y = 365 + (if InLeapYear y then 1 else 0).
Proof.
  unfold DayFromYear, InLeapYear.
  pose proof (floor_step y 1969 4 ltac:(lia)) as H4.
  pose proof (floor_step y 1901 100 ltac:(lia)) as H100.
  pose proof (floor_step y 1601 400 ltac:(lia)) as H400.
  replace ((y + 1 - 1969) mod 4) with (y mod 4) in H4
    by (Z.div_mod_to_equations; lia).
  replace ((y + 1 - 1901) mod 100) with (y mod 100) in H100
    by (Z.div_mod_to_equations; lia).
  replace ((y + 1 - 1601) mod 400) with (y mod 400) in H400
    by (Z.div_mod_to_equations; lia).
  assert (H1 : y mod 100 = 0 -> y mod 4 = 0) by (Z.div_mod_to_equations; lia).
  assert (H2 : y mod 400 = 0 -> y mod 100 = 0) by (Z.div_mod_to_equations; lia).
  destruct (Z.eqb_spec (y mod 4) 0); destruct (Z.eqb_spec (y mod 100) 0);
    destruct (Z.eqb_spec (y mod 400) 0); cbn [andb orb negb]; lia.
Qed.

(** Every month has between 28 and 31 days. *)
Lemma daysInMonth_bounds (y m : Z) : 28 <= daysInMonth y m <= 31.
Proof.
  unfold daysInMonth, MakeDay. cbv zeta.
  pose proof (Z.mod_pos_bound m 12 ltac:(lia)) as Hr.
  assert (Hcase :
    (m mod 12 < 11 /\ (m + 1) / 12 = m / 12 /\ (m + 1) mod 12 = m mod 12 + 1)
    \/ (m mod 12 = 11 /\ (m + 1) / 12 = m / 12 + 1 /\ (m + 1) mod 12 = 0))
    by (Z.div_mod_to_equations; lia).
  destruct Hcase as [(Hlt & -> & ->) | (He & -> & ->)].
  - set (D := DayFromYear (y + m / 12)).
    set (leap := InLeapYear (y + m / 12)).
    assert (Hm : m mod 12 = 0 \/ m mod 12 = 1 \/ m mod 12 = 2 \/ m mod 12 = 3
                 \/ m mod 12 = 4 \/ m mod 12 = 5 \/ m mod 12 = 6 \/ m mod 12 = 7
                 \/ m mod 12 = 8 \/ m mod 12 = 9 \/ m mod 12 = 10) by lia.
    repeat (destruct Hm as [Hm|Hm]);
      rewrite Hm; destruct leap; cbn [MonthStart Z.add Pos.add Pos.succ]; lia.
  - rewrite He. rewrite Z.add_assoc.
    pose proof (year_length (y + m / 12)) as Hy.
    destruct (InLeapYear (y + m / 12)); cbn [MonthStart];
      destruct (InLeapYear (y + m / 12 + 1)); lia.
Qed.

Lemma MakeDay_index (y m d : Z) : MakeDay y m d = MakeDay 0 (12 * y + m) d.
Proof.
  unfold MakeDay. cbv zeta.
  replace ((12 * y + m) / 12) with (y + m / 12) by (Z.div_mod_to_equations; lia).
  replace ((12 * y + m) mod 12) with (m mod 12) by (Z.div_mod_to_equations; lia).
  reflexivity.
Qed.

Lemma MakeDay_day (y m d : Z) : MakeDay y m d = MakeDay y m 1 + d - 1.
Proof. unfold MakeDay. lia. Qed.

(** Months follow one another without gap, and none is empty. *)
Lemma month_nonempty (k : Z) :
  newDate 0 k 1 + 28 * msPerDay <= newDate 0 (k + 1) 1.
Proof.
  pose proof (daysInMonth_bounds 0 k) as H.
  unfold daysInMonth in H. unfold newDate, msPerDay. lia.
Qed.

Lemma startOfMonth_index (d : Date) :
  startOfMonth d = newDate 0 (monthIndex d) 1.
Proof. unfold startOfMonth, newDate, monthIndex. rewrite MakeDay_index. reflexivity. Qed.

(** [endOfMonth] is the last millisecond before the next month. *)
Lemma endOfMonth_index (d : Date) :
  endOfMonth d = newDate 0 (monthIndex d + 1) 1 - 1.
Proof.
  unfold endOfMonth, newDate, monthIndex, msPerDay.
  rewrite (MakeDay_index (getFullYear d)), (MakeDay_day 0 _ 0).
  replace (12 * getFullYear d + (getMonth d + 1))
    with (12 * getFullYear d + getMonth d + 1) by lia.
  lia.
Qed.

Lemma monthIndex_addMonths (d : Date) (amount : Z) :
  monthIndex (addMonths d amount) = monthIndex d + amount.
Proof.
  unfold addMonths.
  destruct (Z.eqb_spec amount 0) as [->|Hne]; [lia|].
  cbv zeta. destruct (getDate d >=? _); unfold monthIndex; cbn [getFullYear getMonth];
    Z.div_mod_to_equations; lia.
Qed.

Lemma monthIndex_subMonths (d : Date) (i : Z) :
  monthIndex (subMonths d i) = monthIndex d - i.
Proof. unfold subMonths. rewrite monthIndex_addMonths. lia. Qed.

Lemma getMonth_subMonths (d : Date) (i : Z) :
  0 <= getMonth d < 12 ->
  getMonth (subMonths d i) = (monthIndex d - i) mod 12.
Proof.
  intro Hm. rewrite <- monthIndex_subMonths.
  assert (Hr : 0 <= getMonth (subMonths d i) < 12).
  { unfold subMonths, addMonths.
    destruct (Z.eqb_spec (- i) 0); [exact Hm|].
    cbv zeta. destruct (getDate d >=? _); cbn [getMonth];
      apply Z.mod_pos_bound; lia. }
  unfold monthIndex. Z.div_mod_to_equations. lia.
Qed.

(** The range query between [startOfMonth] and [endOfMonth] answers the rows
    of the month, all of them and no others. *)
Lemma select_month (rows : list Row) (d : Date) :
  Store.or_empty
    (Store.data (Store.select_range rows (startOfMonth d) (endOfMonth d)))
  = Trends.rows_in_month (monthIndex d) rows.
Proof.
  unfold Store.select_range, Trends.rows_in_month. cbn [Store.data Store.or_empty].
  apply filter_ext. intro r.
  rewrite startOfMonth_index, endOfMonth_index. unfold inMonthb.
  f_equal.
  destruct (Z.leb_spec (date r) (newDate 0 (monthIndex d + 1) 1 - 1));
    destruct (Z.ltb_spec (date r) (newDate 0 (monthIndex d + 1) 1));
    auto; lia.
Qed.

Lemma inMonthb_iff (k t : Z) : inMonthb k t = true <-> inMonth k t.
Proof.
  unfold inMonthb, inMonth. rewrite andb_true_iff, Z.leb_le, Z.ltb_lt. tauto.
Qed.

End CalendarFacts.

(** ** The six month series *)

Section TrendsFacts.
Import Calendar DateFns Trends.

Lemma fetchTrends_unfold (now : Date) (db : Store.Db) :
  fetchTrends now db = map (entry now db) [5; 4; 3; 2; 1; 0].
Proof. reflexivity. Qed.

Lemma formatMMM_label (d : Date) :
  0 <= getMonth d < 12 -> formatMMM d = month_label (monthIndex d).
Proof.
  intro Hm. unfold month_label, formatMMM, monthIndex. cbn [getMonth].
  replace ((12 * getFullYear d + getMonth d) mod 12) with (getMonth d)
    by (Z.div_mod_to_equations; lia).
  reflexivity.
Qed.

(** One turn of the loop summarises the month [i] months before [now]. *)
Lemma entry_covers (now : Date) (db : Store.Db) (i : Z) :
  0 <= getMonth now < 12 ->
  covers db (entry now db i) (monthIndex now - i).
Proof.
  intro Hm. unfold covers, entry. cbv zeta.
  cbn [month expenses income net].
  rewrite !select_month, monthIndex_subMonths.
  set (k := monthIndex now - i).
  pose proof (reduce_amounts_sum (rows_in_month k (Store.from db Store.expenses))) as He.
  pose proof (reduce_amounts_sum (rows_in_month k (Store.from db Store.incomes))) as Hi.
  split.
  - rewrite formatMMM_label.
    + rewrite monthIndex_subMonths. reflexivity.
    + rewrite getMonth_subMonths by exact Hm. apply Z.mod_pos_bound. lia.
  - split; [exact He|]. split; [exact Hi|].
    apply eqn_Num_inv in He as (e & -> & He).
    apply eqn_Num_inv in Hi as (n & -> & Hi).
    simpl. rewrite He, Hi. reflexivity.
Qed.



(** The query of Home and Analytics stops at the midnight that begins the
    last day of the month. *)
Lemma home_range_end (now : Date) :
  newDate (getFullYear now) (getMonth now + 1) 0
  = newDate 0 (monthIndex now + 1) 1 - msPerDay.
Proof.
  unfold newDate, monthIndex.
  rewrite (MakeDay_index (getFullYear now)), (MakeDay_day 0 _ 0).
  replace (12 * getFullYear now + (getMonth now + 1))
    with (12 * getFullYear now + getMonth now + 1) by lia.
  lia.
Qed.

Lemma In_insert_desc (r x : Row) (rows : list Row) :
  In x (Store.insert_desc r rows) <-> x = r \/ In x rows.
Proof.
  induction rows as [|r' rows IH]; simpl.
  - split; [intros [H|[]]; auto | intros [H|[]]; auto].
  - destruct (date r' <=? date r); simpl; [split; intros [H|H]; auto|].
    rewrite IH. split; [intros [H|[H|H]] | intros [H|[H|H]]]; auto.
Qed.

Lemma In_order_desc (x : Row) (rows : list Row) :
  In x (fold_right Store.insert_desc [] rows) <-> In x rows.
Proof.
  induction rows as [|r rows IH]; simpl; [tauto|].
  rewrite In_insert_desc, IH. split; intros [H|H]; auto.
Qed.

(** Whatever the month, the home page lists exactly the rows dated from its
    first instant to the first instant of its last day: a row dated later on
    the last day is in the month and not in the list. *)
Lemma home_lists_until_last_midnight (now : Date) (db : Store.Db)
      (st : Home.State) (r : Row) :
  In r (Home.expenses (Home.fetchExpenses now db st))
  <-> In r (Store.from db Store.expenses)
      /\ newDate 0 (monthIndex now) 1 <= date r
         <= newDate 0 (monthIndex now + 1) 1 - msPerDay.
Proof.
  unfold Home.fetchExpenses. cbv zeta.
  cbn [Store.order_desc Store.select_range Store.error Store.data option_map
       Store.or_empty Home.expenses].
  rewrite In_order_desc, filter_In, andb_true_iff, !Z.leb_le.
  rewrite home_range_end.
  change (newDate (getFullYear now) (getMonth now) 1) with (startOfMonth now).
  rewrite startOfMonth_index. tauto.
Qed.

(** C8, at the failing input.  An expense dated 05:30 on 31 January 2024 lies
    in January, and the query between [startOfMonth] and [endOfMonth] of the
    trends page counts it; the query of the home page and of the analytics
    page, read on 15 January, leaves it out, and both show a total of 0. *)
Theorem month_total_misses_last_day :
  inMonthb (monthIndex Sample.mid_january) (date Sample.last_day_row) = true
  /\ expenses (entry Sample.mid_january Sample.db 0) =n= Num 250
  /\ Home.expenses (Home.fetchExpenses Sample.mid_january Sample.db Home.initial) = []
  /\ Home.totalSpent (Home.fetchExpenses Sample.mid_january Sample.db Home.initial)
     = Num 0
  /\ Analytics.totalExpenses
       (Analytics.fetchAnalytics Sample.mid_january Sample.db Analytics.initial)
     = Num 0.
Proof.
  split; [vm_compute; reflexivity|].
  split; [vm_compute; reflexivity|].
  split; [vm_compute; reflexivity|].
  split; vm_compute; reflexivity.
Qed.

End TrendsFacts.

(** ** The amount constraint of the store *)

Section StoreFacts.
Import Store.

Lemma insert_keeps_positive (rows rows' : list Stored) (id : string) (data : Row) :
  positive_amounts rows -> insert expenses rows id data = Some rows' ->
  positive_amounts rows'.
Proof.
  unfold insert, amount_check. intros Hrows.
  destruct (Js.Qlt_bool 0 (amount data)) eqn:E; [|discriminate].
  intros [= <-]. apply Forall_app. split; [exact Hrows|].
  constructor; [|constructor]. apply Qlt_bool_iff. exact E.
Qed.

Lemma update_keeps_positive (rows rows' : list Stored) (id : string) (data : Row) :
  positive_amounts rows -> update expenses rows id data = Some rows' ->
  positive_amounts rows'.
Proof.
  unfold update, amount_check. intros Hrows.
  match goal with
  | |- context [existsb ?f rows] => destruct (existsb f rows)
  end; [|intros [= <-]; exact Hrows].
  destruct (Js.Qlt_bool 0 (amount data)) eqn:E; [|discriminate].
  apply Qlt_bool_iff in E. intros [= <-].
  unfold positive_amounts in *. rewrite Forall_forall in *.
  intros s Hs. apply in_map_iff in Hs as (s0 & <- & Hs0).
  destruct (String.eqb (fst s0) id); [exact E | apply Hrows; exact Hs0].
Qed.

Lemma delete_keeps_positive (rows : list Stored) (id : string) :
  positive_amounts rows -> positive_amounts (delete rows id).
Proof.
  unfold positive_amounts, delete. rewrite !Forall_forall.
  intros H s Hs. apply filter_In in Hs as [Hs _]. auto.
Qed.

(** The expenses table keeps every amount positive, whatever is inserted,
    updated or deleted. *)
Lemma expenses_amounts_positive (rows : list Stored) :
  reachable expenses rows -> positive_amounts rows.
Proof.
  induction 1 as [|rows id data rows' _ IH Hins
                  |rows id data rows' _ IH Hupd
                  |rows id _ IH].
  - constructor.
  - eapply insert_keeps_positive; eauto.
  - eapply update_keeps_positive; eauto.
  - apply delete_keeps_positive. exact IH.
Qed.

(** C7, at the failing input.  The incomes table has no constraint on the
    amount: it accepts an income of minus five, which the expenses table
    refuses, so a stored income need not be positive. *)
Theorem incomes_accept_nonpositive_amount :
  insert incomes [] "i1" Sample.negative_income
    = Some [("i1"%string, Sample.negative_income)]
  /\ reachable incomes [("i1"%string, Sample.negative_income)]
  /\ ~ positive_amounts [("i1"%string, Sample.negative_income)]
  /\ insert expenses [] "e1" Sample.negative_income = None.
Proof.
  split; [reflexivity|]. split; [|split; [|reflexivity]].
  - eapply reach_insert; [apply reach_empty | reflexivity].
  - intro H. inversion H as [|? ? Hneg _]; subst.
    vm_compute in Hneg. discriminate.
Qed.

End StoreFacts.

(** ** The combined analytics view *)

Section AnalyticsFacts.
Import Analytics.

Lemma process_fetched (expenses incomes : list Row) (st : State) :
  process (fetched expenses) (fetched incomes) st
  = mkState (total (summarize expenses)) (reduce_amounts incomes)
      (average (summarize expenses)) (categoryBreakdown expenses)
      (categoryBreakdown incomes) (List.length expenses + List.length incomes).
Proof. reflexivity. Qed.




End AnalyticsFacts.

(** ** The earlier revision of the analytics page *)

Section EarlierRevisionFacts.
Import Analytics.

Lemma sum_amounts_positive (rows : list Row) :
  rows <> [] -> Forall (fun r => (0 < amount r)%Q) rows ->
  (0 < sum_amounts rows)%Q.
Proof.
  intros Hne Hpos. induction Hpos as [|r rows Hr Hrows IH]; [contradiction|].
  simpl. destruct rows as [|r' rows'].
  - simpl. lra.
  - assert (0 < sum_amounts (r' :: rows'))%Q by (apply IH; discriminate). lra.
Qed.

(** On rows that satisfy the constraint of the expenses table, dividing
    without the guard prints the same shares as dividing under it. *)
Lemma unguarded_agrees_on_positive (rows : list Row) :
  Forall (fun r => (0 < amount r)%Q) rows ->
  categoryBreakdown_unguarded rows = categoryBreakdown rows.
Proof.
  intro Hpos. destruct rows as [|r rows]; [reflexivity|].
  unfold categoryBreakdown_unguarded, categoryBreakdown.
  pose proof (sum_amounts_positive (r :: rows) ltac:(discriminate) Hpos) as Hs.
  destruct (eqn_Num_inv _ _ (reduce_amounts_sum (r :: rows))) as (t & -> & Ht).
  apply map_ext. intro e. unfold share, Js.gt.
  replace (Js.Qlt_bool 0 t) with true by (symmetry; apply Qlt_bool_iff; lra).
  reflexivity.
Qed.

(** Without the guard a row of amount 0, which only the incomes table can
    hold, would print [NaN]; under the guard it prints ["0"]. *)
Lemma guard_replaces_NaN :
  map percentage (categoryBreakdown_unguarded [mkRow "Gift" 0 "Other" 0])
    = ["NaN"%string]
  /\ map percentage (categoryBreakdown [mkRow "Gift" 0 "Other" 0])
    = ["0"%string].
Proof. split; vm_compute; reflexivity. Qed.

(** The worked example in full: 600 in 3 rows, 200 on average. *)
Lemma summarize_example :
  total (summarize example_rows) = Num 600
  /\ count (summarize example_rows) = 3%nat
  /\ average (summarize example_rows) =n= Num 200.
Proof. repeat (split; [vm_compute; reflexivity|]). vm_compute. reflexivity. Qed.

End EarlierRevisionFacts.

(** ** The budgets table and the settings form *)

Section BudgetTableFacts.
Import Calendar Budgets.

Lemma key_eqb_eq (a b : Z * Z) : key_eqb a b = true <-> a = b.
Proof.
  unfold key_eqb. destruct a as [a1 a2], b as [b1 b2]. cbn [fst snd].
  rewrite andb_true_iff, !Z.eqb_eq. split; [intros [-> ->]; reflexivity|].
  intros [= -> ->]. auto.
Qed.

Lemma key_eqb_neq (a b : Z * Z) : a <> b -> key_eqb a b = false.
Proof.
  intro H. destruct (key_eqb a b) eqn:E; [|reflexivity].
  apply key_eqb_eq in E. contradiction.
Qed.

Lemma no_month_no_match (tbl : list BudgetRow) (key : Z * Z) :
  ~ In key (map budget_month tbl) ->
  filter (fun r => key_eqb (budget_month r) key) tbl = [].
Proof.
  induction tbl as [|r tbl IH]; simpl; [reflexivity|].
  intro H. rewrite key_eqb_neq by (intro E; apply H; left; exact E).
  apply IH. intro Hin. apply H. right. exact Hin.
Qed.

(** With one row per month the query finds the stored row and never fails. *)
Lemma select_month_find (tbl : list BudgetRow) (key : Z * Z) :
  NoDup (map budget_month tbl) ->
  select_month tbl key
  = mkSingle (find (fun r => key_eqb (budget_month r) key) tbl) false.
Proof.
  unfold select_month. induction tbl as [|r tbl IH]; simpl; [reflexivity|].
  intro Hnd. inversion Hnd as [|? ? Hnot Hnd']; subst.
  destruct (key_eqb (budget_month r) key) eqn:E.
  - apply key_eqb_eq in E. rewrite <- E in *.
    rewrite no_month_no_match by exact Hnot. reflexivity.
  - apply IH. exact Hnd'.
Qed.

Lemma find_some_in (tbl : list BudgetRow) (key : Z * Z) (e : BudgetRow) :
  find (fun r => key_eqb (budget_month r) key) tbl = Some e ->
  In e tbl /\ budget_month e = key.
Proof.
  intro H. apply find_some in H as [Hin Hk]. apply key_eqb_eq in Hk. auto.
Qed.

Lemma find_none_not_in (tbl : list BudgetRow) (key : Z * Z) :
  find (fun r => key_eqb (budget_month r) key) tbl = None ->
  existsb (fun r => key_eqb (budget_month r) key) tbl = false.
Proof.
  intro H. destruct (existsb _ tbl) eqn:E; [|reflexivity].
  apply existsb_exists in E as (r & Hin & Hr).
  pose proof (find_none _ _ H r Hin) as Hn. cbv beta in Hn. congruence.
Qed.

Lemma existsb_id_in (tbl : list BudgetRow) (id : string) :
  existsb (fun r => String.eqb (budget_id r) id) tbl = true
  <-> In id (map budget_id tbl).
Proof.
  rewrite existsb_exists, in_map_iff. split.
  - intros (r & Hin & Hr). apply String.eqb_eq in Hr. eauto.
  - intros (r & Hr & Hin). exists r. split; [exact Hin|].
    apply String.eqb_eq. exact Hr.
Qed.

(** Writing a new amount into the row of key [id] touches no key and no
    month. *)
Lemma update_map_fields (tbl : list BudgetRow) (id : string) (q : Q) :
  let f := fun r => if String.eqb (budget_id r) id
                    then mkBudgetRow (budget_id r) (budget_month r) q else r in
  map budget_id (map f tbl) = map budget_id tbl
  /\ map budget_month (map f tbl) = map budget_month tbl.
Proof.
  cbv zeta. rewrite !map_map. split; apply map_ext; intro r;
    destruct (String.eqb (budget_id r) id); reflexivity.
Qed.

Lemma find_map_month (tbl : list BudgetRow) (key : Z * Z)
      (f : BudgetRow -> BudgetRow) :
  (forall r, budget_month (f r) = budget_month r) ->
  find (fun r => key_eqb (budget_month r) key) (map f tbl)
  = option_map f (find (fun r => key_eqb (budget_month r) key) tbl).
Proof.
  intro Hf. induction tbl as [|r tbl IH]; simpl; [reflexivity|].
  rewrite Hf. destruct (key_eqb (budget_month r) key); [reflexivity | exact IH].
Qed.

Lemma NoDup_snoc {A : Type} (l : list A) (x : A) :
  NoDup l -> ~ In x l -> NoDup (l ++ [x]).
Proof.
  intros Hl Hx. apply NoDup_app; [exact Hl | repeat constructor; intros [] |].
  intros a Ha [Hax|[]]. subst a. contradiction.
Qed.

(** Whatever is submitted, the form leaves the table with one row per key,
    one row per month and positive amounts. *)
Theorem handleSaveBudget_keeps_constraints
        (now : Date) (a : number) (fresh : string) (tbl : list BudgetRow) :
  well_formed tbl -> well_formed (fst (handleSaveBudget now a fresh tbl)).
Proof.
  intros Hwf. pose proof Hwf as (Hid & Hmonth & Hpos). unfold handleSaveBudget.
  destruct (Js.ge (Num 0) a); [exact Hwf|]. cbv zeta.
  rewrite select_month_find by exact Hmonth. cbn [row].
  destruct (find _ tbl) as [e|] eqn:Ef.
  - unfold update.
    destruct (existsb _ tbl); [|exact Hwf].
    destruct a as [q| |]; try exact Hwf.
    destruct (Js.Qlt_bool 0 q) eqn:Eq; [|exact Hwf].
    apply Qlt_bool_iff in Eq. cbn [fst].
    destruct (update_map_fields tbl (budget_id e) q) as [H1 H2].
    cbv zeta in H1, H2. unfold well_formed. rewrite H1, H2.
    split; [exact Hid|]. split; [exact Hmonth|].
    rewrite Forall_forall in *. intros r Hr.
    apply in_map_iff in Hr as (r0 & <- & Hr0).
    destruct (String.eqb (budget_id r0) (budget_id e)); [exact Eq | auto].
  - unfold insert. destruct a as [q| |]; try exact Hwf.
    destruct (Js.Qlt_bool 0 q) eqn:Eq; [|exact Hwf].
    destruct (existsb (fun r => key_eqb (budget_month r) (monthKey now)) tbl) eqn:Em;
      [exact Hwf|].
    destruct (existsb (fun r => String.eqb (budget_id r) fresh) tbl) eqn:Ei;
      [exact Hwf|].
    cbn [andb negb fst]. apply Qlt_bool_iff in Eq.
    unfold well_formed. rewrite !map_app. cbn [map budget_id budget_month].
    split; [|split].
    + apply NoDup_snoc; [exact Hid|]. intro Hin.
      apply existsb_id_in in Hin. congruence.
    + apply NoDup_snoc; [exact Hmonth|]. intro Hin.
      apply in_map_iff in Hin as (r & Hr & Hin).
      assert (existsb (fun r => key_eqb (budget_month r) (monthKey now)) tbl = true).
      { apply existsb_exists. exists r. split; [exact Hin|].
        apply key_eqb_eq. exact Hr. }
      congruence.
    + apply Forall_app. split; [exact Hpos|]. repeat constructor. exact Eq.
Qed.

(** A table with a budget for December 2023 and one for January 2024.  A
    save of 5000 in January rewrites the January row, a save of 4000 in March
    appends a row, and a save of -1 is refused; the constraints hold of the
    table before and after each. *)
Lemma handleSaveBudget_keeps_constraints_witness :
  let tbl := [mkBudgetRow "b1" (2023, 11) 2500; mkBudgetRow "b2" (2024, 0) 3000] in
  well_formed tbl
  /\ fst (handleSaveBudget Sample.mid_january (Num 5000) "b3" tbl)
     = [mkBudgetRow "b1" (2023, 11) 2500; mkBudgetRow "b2" (2024, 0) 5000]
  /\ well_formed (fst (handleSaveBudget Sample.mid_january (Num 5000) "b3" tbl))
  /\ fst (handleSaveBudget Sample.end_of_march (Num 4000) "b3" tbl)
     = tbl ++ [mkBudgetRow "b3" (2024, 2) 4000]
  /\ well_formed (fst (handleSaveBudget Sample.end_of_march (Num 4000) "b3" tbl))
  /\ handleSaveBudget Sample.mid_january (Num (- 1)) "b3" tbl
     = (tbl, toast_error "Budget must be greater than 0")
  /\ well_formed (fst (handleSaveBudget Sample.mid_january (Num (- 1)) "b3" tbl)).
Proof.
  cbv zeta.
  assert (Hwf : well_formed
                  [mkBudgetRow "b1" (2023, 11) 2500;
                   mkBudgetRow "b2" (2024, 0) 3000]).
  { unfold well_formed. cbn [map budget_id budget_month].
    split; [|split].
    - apply NoDup_cons; [intros [H|[]]; discriminate H|].
      apply NoDup_cons; [intros []|apply NoDup_nil].
    - apply NoDup_cons; [intros [H|[]]; discriminate H|].
      apply NoDup_cons; [intros []|apply NoDup_nil].
    - apply Forall_cons; [reflexivity|].
      apply Forall_cons; [reflexivity|apply Forall_nil]. }
  split; [exact Hwf|].
  split; [vm_compute; reflexivity|].
  split; [exact (handleSaveBudget_keeps_constraints
                   Sample.mid_january (Num 5000) "b3"%string _ Hwf)|].
  split; [vm_compute; reflexivity|].
  split; [exact (handleSaveBudget_keeps_constraints
                   Sample.end_of_march (Num 4000) "b3"%string _ Hwf)|].
  split; [vm_compute; reflexivity|].
  exact (handleSaveBudget_keeps_constraints
           Sample.mid_january (Num (- 1)) "b3"%string _ Hwf).
Defined.

Lemma find_snoc {A : Type} (p : A -> bool) (l : list A) (x : A) :
  find p (l ++ [x])
  = match find p l with
    | Some y => Some y
    | None => if p x then Some x else None
    end.
Proof.
  induction l as [|y l IH]; simpl; [reflexivity|].
  destruct (p y); [reflexivity | exact IH].
Qed.

Lemma same_id_same_row (tbl : list BudgetRow) (r e : BudgetRow) :
  NoDup (map budget_id tbl) -> In r tbl -> In e tbl ->
  budget_id r = budget_id e -> r = e.
Proof.
  induction tbl as [|x tbl IH]; simpl; [intros _ []|].
  intros Hnd Hr He Hid. inversion Hnd as [|? ? Hnot Hnd']; subst.
  destruct Hr as [->|Hr], He as [->|He]; auto.
  - exfalso. apply Hnot. rewrite Hid. apply in_map. exact He.
  - exfalso. apply Hnot. rewrite <- Hid. apply in_map. exact Hr.
Qed.

Lemma selected_row_in (tbl : list BudgetRow) (key : Z * Z) (e : BudgetRow) :
  row (select_month tbl key) = Some e -> In e tbl.
Proof.
  unfold select_month, maybeSingle.
  destruct (filter _ tbl) as [|r [|r' l]] eqn:E; cbn [row]; try discriminate.
  intros [= ->].
  assert (Hin : In e (filter (fun r => key_eqb (budget_month r) key) tbl))
    by (rewrite E; left; reflexivity).
  apply filter_In in Hin as [Hin _]. exact Hin.
Qed.

(** A positive budget saved on the settings page is the budget the home page
    loads in the same month, and the budgets of other months stay as they
    were. *)
Theorem save_then_load_budget
        (now : Date) (q : Q) (fresh : string) (tbl : list BudgetRow)
        (st : Home.State) :
  well_formed tbl -> (0 < q)%Q -> ~ In fresh (map budget_id tbl) ->
  let saved := handleSaveBudget now (Num q) fresh tbl in
  snd saved = toast_success "Budget saved successfully!"
  /\ stored (fst saved) (monthKey now) = Some q
  /\ Home.budget (loadBudget now (fst saved) st) = Num q
  /\ (forall key, key <> monthKey now ->
      stored (fst saved) key = stored tbl key).
Proof.
  intros Hwf Hq Hfresh. cbv zeta.
  destruct Hwf as (Hid & Hmonth & Hpos).
  assert (Hload : forall tbl', NoDup (map budget_month tbl') ->
            stored tbl' (monthKey now) = Some q ->
            Home.budget (loadBudget now tbl' st) = Num q).
  { intros tbl' Hnd Hs. unfold loadBudget. rewrite select_month_find by exact Hnd.
    cbn [failed row]. unfold stored in Hs. rewrite Hs.
    unfold Home.fetchBudget, Js.or_zero, Js.truthy. cbn [Home.budget].
    replace (Qeq_bool q 0) with false
      by (symmetry; apply Qeq_bool_false_iff; lra).
    reflexivity. }
  unfold handleSaveBudget.
  replace (Js.ge (Num 0) (Num q)) with false
    by (symmetry; apply Qle_bool_false_iff; exact Hq).
  cbv zeta. rewrite select_month_find by exact Hmonth. cbn [row].
  destruct (find _ tbl) as [e|] eqn:Ef.
  - destruct (find_some_in _ _ _ Ef) as [Hin Hk].
    unfold update.
    replace (existsb (fun r => String.eqb (budget_id r) (budget_id e)) tbl)
      with true
      by (symmetry; apply existsb_id_in; apply in_map; exact Hin).
    replace (Js.Qlt_bool 0 q) with true by (symmetry; apply Qlt_bool_iff; exact Hq).
    cbn [fst snd].
    set (f := fun r => if String.eqb (budget_id r) (budget_id e)
                       then mkBudgetRow (budget_id r) (budget_month r) q
                       else r) in *.
    assert (Hf : forall r, budget_month (f r) = budget_month r).
    { intro r. unfold f. destruct (String.eqb _ _); reflexivity. }
    assert (Hmonth' : NoDup (map budget_month (map f tbl))).
    { rewrite map_map. rewrite (map_ext _ budget_month Hf). exact Hmonth. }
    assert (Hs : stored (map f tbl) (monthKey now) = Some q).
    { unfold stored. rewrite find_map_month by exact Hf. rewrite Ef.
      cbn [option_map]. unfold f. rewrite String.eqb_refl. reflexivity. }
    split; [reflexivity|]. split; [exact Hs|].
    split; [apply Hload; assumption|].
    intros key Hkey. unfold stored. rewrite find_map_month by exact Hf.
    destruct (find (fun r => key_eqb (budget_month r) key) tbl) as [r|] eqn:Er;
      [|reflexivity].
    destruct (find_some_in _ _ _ Er) as [Hrin Hrk].
    cbn [option_map]. unfold f.
    destruct (String.eqb (budget_id r) (budget_id e)) eqn:Eid; [|reflexivity].
    apply String.eqb_eq in Eid.
    pose proof (same_id_same_row tbl r e Hid Hrin Hin Eid). subst r. congruence.
  - unfold insert.
    replace (Js.Qlt_bool 0 q) with true by (symmetry; apply Qlt_bool_iff; exact Hq).
    rewrite (find_none_not_in _ _ Ef).
    replace (existsb (fun r => String.eqb (budget_id r) fresh) tbl) with false.
    2:{ symmetry. destruct (existsb _ tbl) eqn:E; [|reflexivity].
        apply existsb_id_in in E. contradiction. }
    cbn [andb negb fst snd].
    assert (Hmonth' : NoDup (map budget_month
                               (tbl ++ [mkBudgetRow fresh (monthKey now) q]))).
    { rewrite map_app. cbn [map budget_month].
      apply NoDup_snoc; [exact Hmonth|]. intro Hin.
      apply in_map_iff in Hin as (r & Hr & Hin).
      pose proof (find_none _ _ Ef r Hin) as Hn. cbv beta in Hn.
      rewrite Hr in Hn.
      replace (key_eqb (monthKey now) (monthKey now)) with true in Hn
        by (symmetry; apply key_eqb_eq; reflexivity).
      discriminate. }
    assert (Hs : stored (tbl ++ [mkBudgetRow fresh (monthKey now) q])
                   (monthKey now) = Some q).
    { unfold stored. rewrite find_snoc, Ef. cbn [budget_month].
      replace (key_eqb (monthKey now) (monthKey now)) with true
        by (symmetry; apply key_eqb_eq; reflexivity).
      reflexivity. }
    split; [reflexivity|]. split; [exact Hs|].
    split; [apply Hload; assumption|].
    intros key Hkey. unfold stored. rewrite find_snoc.
    destruct (find (fun r => key_eqb (budget_month r) key) tbl); [reflexivity|].
    cbn [budget_month]. rewrite key_eqb_neq by congruence. reflexivity.
Qed.

(** Saving 5000 in January 2024 on the empty table, then loading it. *)
Lemma save_then_load_budget_witness :
  well_formed [] /\ (0 < 5000)%Q /\ ~ In "b1"%string (map budget_id [])
  /\ Home.budget
       (loadBudget Sample.mid_january
          (fst (handleSaveBudget Sample.mid_january (Num 5000) "b1" []))
          Home.initial)
     = Num 5000.
Proof.
  assert (H1 : well_formed []) by (repeat split; constructor).
  assert (H2 : (0 < 5000)%Q) by reflexivity.
  assert (H3 : ~ In "b1"%string (map budget_id [])) by (intros []).
  split; [exact H1|]. split; [exact H2|]. split; [exact H3|].
  exact (proj1 (proj2 (proj2
    (save_then_load_budget Sample.mid_january 5000 "b1"%string []
       Home.initial H1 H2 H3)))).
Defined.

(** Anything that is not a positive finite number changes nothing: the table
    is left as it was and the form reports an error. *)
Theorem handleSaveBudget_rejects
        (now : Date) (a : number) (fresh : string) (tbl : list BudgetRow) :
  (forall q, a = Num q -> (q <= 0)%Q) ->
  fst (handleSaveBudget now a fresh tbl) = tbl
  /\ exists message, snd (handleSaveBudget now a fresh tbl) = toast_error message.
Proof.
  intro Ha. unfold handleSaveBudget.
  destruct a as [q| |[|]].
  - replace (Js.ge (Num 0) (Num q)) with true
      by (symmetry; apply Qle_bool_iff; apply Ha; reflexivity).
    split; [reflexivity | eexists; reflexivity].
  - cbn [Js.ge]. cbv zeta.
    destruct (row (select_month tbl (monthKey now))) as [e|] eqn:E.
    + apply selected_row_in in E. unfold update.
      replace (existsb (fun r => String.eqb (budget_id r) (budget_id e)) tbl)
        with true by (symmetry; apply existsb_id_in; apply in_map; exact E).
      split; [reflexivity | eexists; reflexivity].
    + split; [reflexivity | eexists; reflexivity].
  - split; [reflexivity | eexists; reflexivity].
  - cbn [Js.ge]. cbv zeta.
    destruct (row (select_month tbl (monthKey now))) as [e|] eqn:E.
    + apply selected_row_in in E. unfold update.
      replace (existsb (fun r => String.eqb (budget_id r) (budget_id e)) tbl)
        with true by (symmetry; apply existsb_id_in; apply in_map; exact E).
      split; [reflexivity | eexists; reflexivity].
    + split; [reflexivity | eexists; reflexivity].
Qed.

(** A budget of minus one is refused before any query is made. *)
Lemma handleSaveBudget_rejects_witness :
  (forall q, Num (- 1) = Num q -> (q <= 0)%Q)
  /\ fst (handleSaveBudget Sample.mid_january (Num (- 1)) "b1" []) = [].
Proof.
  assert (H : forall q, Num (- 1) = Num q -> (q <= 0)%Q).
  { intros q [= <-]. discriminate. }
  split; [exact H|].
  exact (proj1 (handleSaveBudget_rejects Sample.mid_january (Num (- 1))
                  "b1"%string [] H)).
Defined.

End BudgetTableFacts.

(** ** The list of the home page *)

Section HomeListFacts.
Import Calendar.

Lemma insert_desc_perm (r : Row) (rows : list Row) :
  Permutation (Store.insert_desc r rows) (r :: rows).
Proof.
  induction rows as [|r' rows IH]; simpl; [reflexivity|].
  destruct (date r' <=? date r); [reflexivity|].
  rewrite IH. apply perm_swap.
Qed.

Lemma order_desc_perm (rows : list Row) :
  Permutation (fold_right Store.insert_desc [] rows) rows.
Proof.
  induction rows as [|r rows IH]; simpl; [reflexivity|].
  rewrite insert_desc_perm. constructor. exact IH.
Qed.

Lemma insert_desc_sorted (r : Row) (rows : list Row) :
  Sorted Actions.newer_first rows -> Sorted Actions.newer_first (Store.insert_desc r rows).
Proof.
  induction 1 as [|r' rows Hs IH Hhd]; simpl.
  - repeat constructor.
  - destruct (Z.leb_spec (date r') (date r)).
    + constructor; [constructor; assumption|]. constructor. exact H.
    + constructor; [exact IH|].
      destruct rows as [|r'' rows]; simpl.
      * constructor. unfold Actions.newer_first. lia.
      * destruct (Z.leb_spec (date r'') (date r)).
        -- constructor. unfold Actions.newer_first. lia.
        -- inversion Hhd; subst. constructor. assumption.
Qed.

Lemma fetchExpenses_rows (now : Date) (db : Store.Db) (st : Home.State) :
  Home.expenses (Home.fetchExpenses now db st)
  = fold_right Store.insert_desc []
      (filter (Actions.in_home_range now) (Store.from db Store.expenses))
  /\ Home.totalSpent (Home.fetchExpenses now db st)
     = reduce_amounts (Home.expenses (Home.fetchExpenses now db st)).
Proof. split; reflexivity. Qed.

(** The list of the home page holds the stored expenses of the queried
    range, each one once, the newest first. *)
Theorem home_list_newest_first (now : Date) (db : Store.Db) (st : Home.State) :
  Permutation (Home.expenses (Home.fetchExpenses now db st))
    (filter (Actions.in_home_range now) (Store.from db Store.expenses))
  /\ Sorted (fun a b => date b <= date a)
       (Home.expenses (Home.fetchExpenses now db st)).
Proof.
  destruct (fetchExpenses_rows now db st) as [-> _].
  split; [apply order_desc_perm|].
  change (fun a b : Row => date b <= date a) with Actions.newer_first.
  induction (filter (Actions.in_home_range now) (Store.from db Store.expenses))
    as [|r rows IH]; simpl; [constructor|].
  apply insert_desc_sorted. exact IH.
Qed.

End HomeListFacts.

(** ** The budget card at its edges *)

Section BudgetEdgeFacts.

(** Without a positive budget neither the warning nor the exceeded banner is
    ever shown, however much was spent. *)
Theorem no_budget_no_banner (spent budget : Q) :
  (budget <= 0)%Q ->
  Home.isWarning (Home.budgetStatus (Num spent) (Num budget)) = false
  /\ Home.isExceeded (Home.budgetStatus (Num spent) (Num budget)) = false
  /\ Home.banner (Home.budgetPercentage (Num spent) (Num budget)) = None.
Proof.
  intro Hb. unfold Home.budgetStatus, Home.budgetPercentage, Js.gt.
  replace (Js.Qlt_bool 0 budget) with false
    by (symmetry; apply Qlt_bool_false_iff; exact Hb).
  repeat split.
Qed.

(** Ten thousand spent with no budget set raises no banner. *)
Lemma no_budget_no_banner_witness :
  (0 <= 0)%Q
  /\ Home.banner (Home.budgetPercentage (Num 10000) (Num 0)) = None.
Proof.
  assert (H : (0 <= 0)%Q) by discriminate.
  split; [exact H|].
  exact (proj2 (proj2 (no_budget_no_banner 10000 0 H))).
Defined.

End BudgetEdgeFacts.

(** ** The entries of the category breakdown *)

Section BreakdownOrderFacts.
Import Analytics.

Lemma filter_twice {A : Type} (p q : A -> bool) (l : list A) :
  filter p (filter q l) = filter (fun x => p x && q x) l.
Proof.
  induction l as [|x l IH]; simpl; [reflexivity|].
  destruct (q x); simpl; rewrite ?andb_true_r, ?andb_false_r; simpl.
  - destruct (p x); rewrite IH; reflexivity.
  - exact IH.
Qed.

Lemma In_first_occurrences (x : string) (l : list string) :
  In x (Page.first_occurrences l) <-> In x l.
Proof.
  induction l as [|c l IH]; simpl; [tauto|].
  rewrite filter_In, IH, negb_true_iff.
  destruct (String.eqb_spec c x) as [->|Hne]; [tauto|].
  split; [intros [H|[H _]]; auto | intros [H|H]; auto; contradiction].
Qed.

Lemma NoDup_first_occurrences (l : list string) :
  NoDup (Page.first_occurrences l).
Proof.
  induction l as [|c l IH]; simpl; constructor.
  - rewrite filter_In, String.eqb_refl. intros [_ H]. discriminate.
  - apply NoDup_filter. exact IH.
Qed.

(** The keys of the map while the [forEach] runs: those it started with,
    then the new categories in the order they first come up. *)
Lemma categoryMap_keys_fold (rows : list Row) (m : CategoryMap) :
  map fst
    (fold_left
       (fun m r => set m (category r)
                     (Js.add (current m (category r)) (Number r)))
       rows m)
  = map fst m
    ++ filter (fun x => negb (existsb (String.eqb x) (map fst m)))
         (Page.first_occurrences (map category rows)).
Proof.
  revert m. induction rows as [|r rows IH]; intro m; cbn [fold_left map].
  - simpl. rewrite app_nil_r. reflexivity.
  - rewrite IH, keys_set. cbn [Page.first_occurrences filter].
    set (K := map fst m). set (c := category r).
    set (F := Page.first_occurrences (map category rows)).
    destruct (existsb (String.eqb c) K) eqn:E; cbn [negb].
    + f_equal. rewrite filter_twice. apply filter_ext. intro x.
      destruct (String.eqb_spec c x) as [<-|Hne]; cbn [negb].
      * rewrite E. reflexivity.
      * rewrite andb_true_r. reflexivity.
    + rewrite <- app_assoc. cbn [app]. f_equal. f_equal.
      rewrite filter_twice. apply filter_ext. intro x.
      rewrite existsb_app. cbn [existsb]. rewrite orb_false_r, negb_orb.
      rewrite (String.eqb_sym x c). reflexivity.
Qed.

Lemma breakdown_names (rows : list Row) :
  map name (categoryBreakdown rows)
  = Page.first_occurrences (map category rows).
Proof.
  unfold categoryBreakdown. rewrite map_map. cbn [name].
  change (map (fun e : string * number => fst e) (categoryMap rows))
    with (map fst (categoryMap rows)).
  unfold categoryMap. rewrite categoryMap_keys_fold. cbn [map app existsb negb].
  induction (Page.first_occurrences (map category rows)) as [|x l IHl];
    simpl; [reflexivity | rewrite IHl; reflexivity].
Qed.

(** The breakdown lists every category that occurs among the rows, once, and
    in the order in which the categories first occur. *)
Theorem categoryBreakdown_lists_first_occurrences (rows : list Row) :
  map name (categoryBreakdown rows)
    = Page.first_occurrences (map category rows)
  /\ NoDup (map name (categoryBreakdown rows))
  /\ (forall c, In c (map name (categoryBreakdown rows))
                <-> exists r, In r rows /\ category r = c).
Proof.
  rewrite breakdown_names.
  split; [reflexivity|]. split; [apply NoDup_first_occurrences|].
  intro c. rewrite In_first_occurrences, in_map_iff.
  split; intros (r & H1 & H2); exists r; auto.
Qed.

End BreakdownOrderFacts.

(** ** Shares of rows with positive amounts *)

Section BreakdownValueFacts.
Import Analytics.

Lemma sum_amounts_nonneg (rows : list Row) :
  Forall (fun r => (0 < amount r)%Q) rows -> (0 <= sum_amounts rows)%Q.
Proof.
  induction 1 as [|r rows Hr _ IH]; simpl; lra.
Qed.

Lemma group_sum_bounds (rows : list Row) (c : string) :
  Forall (fun r => (0 < amount r)%Q) rows ->
  (0 <= group_sum rows c <= sum_amounts rows)%Q.
Proof.
  unfold group_sum. induction 1 as [|r rows Hr _ IH]; simpl; [lra|].
  destruct (String.eqb (category r) c); simpl; lra.
Qed.

Lemma rounded_tenths_range (x : Q) :
  (0 <= x <= 100)%Q -> 0 <= Js.rounded_tenths x <= 1000.
Proof.
  intros [Hlo Hhi]. unfold Js.rounded_tenths.
  replace (Js.Qlt_bool x 0) with false
    by (symmetry; apply Qlt_bool_false_iff; exact Hlo).
  split; [apply tenths_nonneg|].
  unfold Js.tenths. rewrite Qabs_pos by exact Hlo.
  change 1000 with (Qfloor (1000 + (1 # 2))).
  apply Qfloor_resp_le. lra.
Qed.



(** With positive amounts, the analytics page puts its "no data" text in
    place of the comparison chart exactly when neither an expense nor an
    income was fetched. *)
Theorem no_comparison_data_iff_nothing_fetched
        (expenses incomes : list Row) (st : State) :
  Forall (fun r => (0 < amount r)%Q) expenses ->
  Forall (fun r => (0 < amount r)%Q) incomes ->
  (Page.noComparisonData (process (fetched expenses) (fetched incomes) st) = true
   <-> expenses = [] /\ incomes = []).
Proof.
  intros He Hi. rewrite process_fetched. unfold Page.noComparisonData.
  cbn [totalIncome totalExpenses]. unfold summarize. cbn [total].
  destruct (eqn_Num_inv _ _ (reduce_amounts_sum expenses)) as (e & -> & Hes).
  destruct (eqn_Num_inv _ _ (reduce_amounts_sum incomes)) as (i & -> & His).
  cbn [Page.strict_eq]. rewrite andb_true_iff, !Qeq_bool_iff.
  split.
  - intros [Hi0 He0]. split.
    + destruct expenses as [|r l]; [reflexivity|].
      pose proof (sum_amounts_positive (r :: l) ltac:(discriminate) He). lra.
    + destruct incomes as [|r l]; [reflexivity|].
      pose proof (sum_amounts_positive (r :: l) ltac:(discriminate) Hi). lra.
  - intros [-> ->]. simpl in *. split; lra.
Qed.

(** With the three expenses of the example and one salary fetched, all of
    positive amounts, the comparison chart is drawn. *)
Lemma no_comparison_data_iff_nothing_fetched_witness :
  Forall (fun r => (0 < amount r)%Q) example_rows
  /\ Forall (fun r => (0 < amount r)%Q) [Sample.salary_row]
  /\ Page.noComparisonData
       (process (fetched example_rows) (fetched [Sample.salary_row]) initial)
     <> true.
Proof.
  assert (He : Forall (fun r => (0 < amount r)%Q) example_rows)
    by (repeat constructor).
  assert (Hi : Forall (fun r => (0 < amount r)%Q) [Sample.salary_row])
    by (repeat constructor).
  split; [exact He|]. split; [exact Hi|].
  intro H.
  apply (proj1 (no_comparison_data_iff_nothing_fetched
                  example_rows [Sample.salary_row] initial He Hi)) in H.
  destruct H as [H _]. discriminate H.
Defined.

End BreakdownValueFacts.

(** ** The six queries of the trends page *)

Section TrendsWindowFacts.
Import Calendar DateFns Trends.

(** The query of one month of the trends page answers a stored row exactly
    when the row is dated in that month, from its first millisecond to its
    last. *)
Theorem trends_query_is_the_month (rows : list Row) (d : Date) (r : Row) :
  In r (Store.or_empty
          (Store.data
             (Store.select_range rows (startOfMonth d) (endOfMonth d))))
  <-> In r rows /\ inMonth (monthIndex d) (date r).
Proof.
  rewrite select_month. unfold rows_in_month.
  rewrite filter_In, inMonthb_iff. reflexivity.
Qed.

Lemma month_start_le (k : Z) : newDate 0 k 1 <= newDate 0 (k + 1) 1.
Proof. pose proof (month_nonempty k). unfold msPerDay in *. lia. Qed.

(** The starts of the seven months around the window, in order. *)
Lemma months_chain (K : Z) :
  newDate 0 (K - 5) 1 <= newDate 0 (K - 4) 1
  /\ newDate 0 (K - 4) 1 <= newDate 0 (K - 3) 1
  /\ newDate 0 (K - 3) 1 <= newDate 0 (K - 2) 1
  /\ newDate 0 (K - 2) 1 <= newDate 0 (K - 1) 1
  /\ newDate 0 (K - 1) 1 <= newDate 0 (K - 0) 1
  /\ newDate 0 (K - 0) 1 <= newDate 0 (K + 1) 1.
Proof.
  pose proof (month_start_le (K - 5)) as H5.
  pose proof (month_start_le (K - 4)) as H4.
  pose proof (month_start_le (K - 3)) as H3.
  pose proof (month_start_le (K - 2)) as H2.
  pose proof (month_start_le (K - 1)) as H1.
  pose proof (month_start_le (K - 0)) as H0.
  replace (K - 5 + 1) with (K - 4) in H5 by lia.
  replace (K - 4 + 1) with (K - 3) in H4 by lia.
  replace (K - 3 + 1) with (K - 2) in H3 by lia.
  replace (K - 2 + 1) with (K - 1) in H2 by lia.
  replace (K - 1 + 1) with (K - 0) in H1 by lia.
  replace (K - 0 + 1) with (K + 1) in H0 by lia.
  repeat split; assumption.
Qed.

Lemma inMonthb_bounds (k t : Z) :
  inMonthb k t = true <-> newDate 0 k 1 <= t < newDate 0 (k + 1) 1.
Proof. apply inMonthb_iff. Qed.

(** An instant lies in the window exactly when it lies in one of the six
    months, and then in one only. *)
Lemma in_window_iff (now : Date) (t : Z) :
  Page.inWindow now t = true
  <-> exists i, In i [5; 4; 3; 2; 1; 0]
                /\ inMonthb (monthIndex now - i) t = true.
Proof.
  unfold Page.inWindow. rewrite andb_true_iff, Z.leb_le, Z.ltb_lt.
  set (K := monthIndex now).
  destruct (months_chain K) as (H5 & H4 & H3 & H2 & H1 & H0).
  split.
  - intros [Hlo Hhi].
    destruct (Z_lt_ge_dec t (newDate 0 (K - 4) 1));
      [exists 5; split; [simpl; tauto|]; apply inMonthb_bounds;
       replace (K - 5 + 1) with (K - 4) by lia; lia|].
    destruct (Z_lt_ge_dec t (newDate 0 (K - 3) 1));
      [exists 4; split; [simpl; tauto|]; apply inMonthb_bounds;
       replace (K - 4 + 1) with (K - 3) by lia; lia|].
    destruct (Z_lt_ge_dec t (newDate 0 (K - 2) 1));
      [exists 3; split; [simpl; tauto|]; apply inMonthb_bounds;
       replace (K - 3 + 1) with (K - 2) by lia; lia|].
    destruct (Z_lt_ge_dec t (newDate 0 (K - 1) 1));
      [exists 2; split; [simpl; tauto|]; apply inMonthb_bounds;
       replace (K - 2 + 1) with (K - 1) by lia; lia|].
    destruct (Z_lt_ge_dec t (newDate 0 (K - 0) 1));
      [exists 1; split; [simpl; tauto|]; apply inMonthb_bounds;
       replace (K - 1 + 1) with (K - 0) by lia; lia|].
    exists 0. split; [simpl; tauto|]. apply inMonthb_bounds.
    replace (K - 0 + 1) with (K + 1) by lia. lia.
  - intros (i & Hi & Hm). apply inMonthb_bounds in Hm.
    simpl in Hi.
    destruct Hi as [<-|[<-|[<-|[<-|[<-|[<-|[]]]]]]].
    + replace (K - 5 + 1) with (K - 4) in Hm by lia. lia.
    + replace (K - 4 + 1) with (K - 3) in Hm by lia. lia.
    + replace (K - 3 + 1) with (K - 2) in Hm by lia. lia.
    + replace (K - 2 + 1) with (K - 1) in Hm by lia. lia.
    + replace (K - 1 + 1) with (K - 0) in Hm by lia. lia.
    + replace (K - 0 + 1) with (K + 1) in Hm by lia. lia.
Qed.

Lemma entry_totals (now : Date) (db : Store.Db) (i : Z) :
  expenses (entry now db i)
  = reduce_amounts
      (rows_in_month (monthIndex now - i) (Store.from db Store.expenses))
  /\ income (entry now db i)
     = reduce_amounts
         (rows_in_month (monthIndex now - i) (Store.from db Store.incomes)).
Proof.
  unfold entry. cbv zeta. cbn [expenses income].
  rewrite !select_month, monthIndex_subMonths. split; reflexivity.
Qed.

(** A row adds its amount to the total of one month when it is dated in
    the window, and to none when it is not. *)
Lemma row_counted_once (now : Date) (t : Z) (a : Q) :
  let K := monthIndex now in
  ((if inMonthb (K - 5) t then a else 0)
   + (if inMonthb (K - 4) t then a else 0)
   + (if inMonthb (K - 3) t then a else 0)
   + (if inMonthb (K - 2) t then a else 0)
   + (if inMonthb (K - 1) t then a else 0)
   + (if inMonthb (K - 0) t then a else 0)
   == if Page.inWindow now t then a else 0)%Q.
Proof.
  cbv zeta. unfold inMonthb, Page.inWindow.
  set (K := monthIndex now).
  destruct (months_chain K) as (H5 & H4 & H3 & H2 & H1 & H0).
  replace (K - 5 + 1) with (K - 4) by lia.
  replace (K - 4 + 1) with (K - 3) by lia.
  replace (K - 3 + 1) with (K - 2) by lia.
  replace (K - 2 + 1) with (K - 1) by lia.
  replace (K - 1 + 1) with (K - 0) by lia.
  replace (K - 0 + 1) with (K + 1) by lia.
  repeat match goal with
         | |- context [?x <=? ?y] =>
             destruct (Z.leb_spec x y); try (exfalso; lia)
         | |- context [?x <? ?y] =>
             destruct (Z.ltb_spec x y); try (exfalso; lia)
         end; cbn [andb]; lra.
Qed.

Lemma six_months_sum (now : Date) (rows : list Row) :
  let K := monthIndex now in
  (sum_amounts (rows_in_month (K - 5) rows)
   + sum_amounts (rows_in_month (K - 4) rows)
   + sum_amounts (rows_in_month (K - 3) rows)
   + sum_amounts (rows_in_month (K - 2) rows)
   + sum_amounts (rows_in_month (K - 1) rows)
   + sum_amounts (rows_in_month (K - 0) rows)
   == sum_amounts (filter (fun r => Page.inWindow now (date r)) rows))%Q.
Proof.
  cbv zeta. unfold rows_in_month.
  induction rows as [|r rows IH]; [simpl; lra|].
  pose proof (row_counted_once now (date r) (amount r)) as Hr. cbv zeta in Hr.
  cbn [filter].
  destruct (inMonthb (monthIndex now - 5) (date r));
    destruct (inMonthb (monthIndex now - 4) (date r));
    destruct (inMonthb (monthIndex now - 3) (date r));
    destruct (inMonthb (monthIndex now - 2) (date r));
    destruct (inMonthb (monthIndex now - 1) (date r));
    destruct (inMonthb (monthIndex now - 0) (date r));
    destruct (Page.inWindow now (date r));
    cbn [sum_amounts] in *; lra.
Qed.


Lemma positive_total_iff_nonempty (l : list Row) :
  Forall (fun r => (0 < amount r)%Q) l ->
  (Js.gt (reduce_amounts l) (Num 0) = true <-> l <> []).
Proof.
  intro Hpos.
  destruct (eqn_Num_inv _ _ (reduce_amounts_sum l)) as (q & -> & Hq).
  cbn [Js.gt]. rewrite Qlt_bool_iff, Hq. split.
  - intros H ->. simpl in H. lra.
  - intro Hne. apply sum_amounts_positive; assumption.
Qed.

Lemma rows_in_month_positive (k : Z) (l : list Row) :
  Forall (fun r => (0 < amount r)%Q) l ->
  Forall (fun r => (0 < amount r)%Q) (rows_in_month k l).
Proof.
  unfold rows_in_month. rewrite !Forall_forall.
  intros H r Hr. apply filter_In in Hr as [Hr _]. auto.
Qed.

Lemma month_has_row (k : Z) (l : list Row) :
  rows_in_month k l <> [] <-> exists r, In r l /\ inMonthb k (date r) = true.
Proof.
  unfold rows_in_month. split.
  - destruct (filter _ l) as [|r l'] eqn:E; [contradiction|].
    intros _. exists r.
    apply (proj1 (filter_In (fun r => inMonthb k (date r)) r l)).
    rewrite E. left. reflexivity.
  - intros (r & Hr) E.
    apply (proj2 (filter_In (fun r => inMonthb k (date r)) r l)) in Hr.
    rewrite E in Hr. destruct Hr.
Qed.

(** With positive amounts, the trends page draws its chart exactly when some
    stored expense or income is dated in the six months up to the current
    one; otherwise it shows its "no data" text. *)
Theorem trends_has_data_iff_row_in_window (now : Date) (db : Store.Db) :
  Forall (fun r => (0 < amount r)%Q) (Store.from db Store.expenses) ->
  Forall (fun r => (0 < amount r)%Q) (Store.from db Store.incomes) ->
  (Page.hasData (fetchTrends now db) = true
   <-> exists r, (In r (Store.from db Store.expenses)
                  \/ In r (Store.from db Store.incomes))
                 /\ Page.inWindow now (date r) = true).
Proof.
  intros He Hi. rewrite fetchTrends_unfold. unfold Page.hasData.
  rewrite existsb_exists. split.
  - intros (d & Hd & Hgt). apply in_map_iff in Hd as (i & <- & Hin).
    destruct (entry_totals now db i) as [Hx Hy]. rewrite Hx, Hy in Hgt.
    apply orb_true_iff in Hgt as [Hgt|Hgt].
    + apply positive_total_iff_nonempty in Hgt;
        [|apply rows_in_month_positive; exact He].
      apply month_has_row in Hgt as (r & Hr & Hm).
      exists r. split; [left; exact Hr|]. apply in_window_iff. eauto.
    + apply positive_total_iff_nonempty in Hgt;
        [|apply rows_in_month_positive; exact Hi].
      apply month_has_row in Hgt as (r & Hr & Hm).
      exists r. split; [right; exact Hr|]. apply in_window_iff. eauto.
  - intros (r & Hr & Hw). apply in_window_iff in Hw as (i & Hin & Hm).
    exists (entry now db i). split; [apply in_map; exact Hin|].
    destruct (entry_totals now db i) as [Hx Hy]. rewrite Hx, Hy.
    apply orb_true_iff. destruct Hr as [Hr|Hr]; [left|right].
    + apply positive_total_iff_nonempty;
        [apply rows_in_month_positive; exact He|].
      apply month_has_row. eauto.
    + apply positive_total_iff_nonempty;
        [apply rows_in_month_positive; exact Hi|].
      apply month_has_row. eauto.
Qed.

(** The sample tables hold positive amounts, and the rent of 31 January is
    in the window of the end of March. *)
Lemma trends_has_data_iff_row_in_window_witness :
  Forall (fun r => (0 < amount r)%Q) (Store.from Sample.db Store.expenses)
  /\ Forall (fun r => (0 < amount r)%Q) (Store.from Sample.db Store.incomes)
  /\ Page.hasData (fetchTrends Sample.end_of_march Sample.db) = true.
Proof.
  assert (H1 : Forall (fun r => (0 < amount r)%Q)
                 (Store.from Sample.db Store.expenses))
    by (repeat constructor).
  assert (H2 : Forall (fun r => (0 < amount r)%Q)
                 (Store.from Sample.db Store.incomes))
    by (repeat constructor).
  split; [exact H1|]. split; [exact H2|].
  apply (proj2 (trends_has_data_iff_row_in_window
                  Sample.end_of_march Sample.db H1 H2)).
  exists Sample.last_day_row. split; [left; left; reflexivity|].
  vm_compute. reflexivity.
Defined.

End TrendsWindowFacts.

(** ** Adding and deleting an expense *)

Section ActionFacts.
Import Calendar Actions.

Lemma delete_fresh (tbl : list Store.Stored) (id : string) :
  ~ In id (map fst tbl) -> Store.delete tbl id = tbl.
Proof.
  unfold Store.delete. induction tbl as [|[k r] tbl IH]; simpl; [reflexivity|].
  intro H. destruct (String.eqb_spec k id) as [->|Hne].
  - exfalso. apply H. left. reflexivity.
  - cbn [negb]. rewrite IH; [reflexivity|]. intro Hin. apply H. right. exact Hin.
Qed.

Lemma delete_snoc (tbl : list Store.Stored) (id : string) (data : Row) :
  ~ In id (map fst tbl) -> Store.delete (tbl ++ [(id, data)]) id = tbl.
Proof.
  intro H. unfold Store.delete. rewrite filter_app. cbn [filter fst].
  rewrite String.eqb_refl. cbn [negb]. rewrite app_nil_r.
  apply delete_fresh. exact H.
Qed.

Lemma fetchExpenses_twice (now : Date) (db db' : Store.Db) (st : Home.State) :
  Home.fetchExpenses now db (Home.fetchExpenses now db' st)
  = Home.fetchExpenses now db st.
Proof. reflexivity. Qed.

(** A new expense with a positive amount is stored under its fresh key, the
    dialog closes, and the refreshed list, newest first, holds the expense
    beside the rows listed before when its date is in the queried range;
    when it is not, the expense is stored all the same and the list holds
    the rows it held. *)
Theorem added_expense_is_listed
        (now : Date) (fresh : string) (data : Row)
        (tbl : list Store.Stored) (ui : Ui) :
  editingExpense ui = None -> (0 < amount data)%Q ->
  let result := handleSubmit now fresh data tbl ui in
  let before := Home.expenses (Home.fetchExpenses now (db_of tbl) (state ui)) in
  let after := Home.expenses (state (snd (fst result))) in
  fst (fst result) = tbl ++ [(fresh, data)]
  /\ snd result = Budgets.toast_success "Expense added!"
  /\ dialogOpen (snd (fst result)) = false
  /\ editingExpense (snd (fst result)) = None
  /\ Permutation after (if in_home_range now data then data :: before else before)
  /\ Sorted newer_first after.
Proof.
  intros Hedit Hpos. cbv zeta. unfold handleSubmit. rewrite Hedit. cbv zeta.
  unfold Store.insert, Store.amount_check.
  replace (Js.Qlt_bool 0 (amount data)) with true
    by (symmetry; apply Qlt_bool_iff; exact Hpos).
  cbn [fst snd dialogOpen editingExpense state].
  split; [reflexivity|]. split; [reflexivity|]. split; [reflexivity|].
  split; [reflexivity|].
  destruct (fetchExpenses_rows now (db_of (tbl ++ [(fresh, data)])) (state ui))
    as [-> _].
  destruct (fetchExpenses_rows now (db_of tbl) (state ui)) as [-> _].
  split.
  - rewrite order_desc_perm.
    cbn [Store.from db_of Store.tbl_expenses].
    rewrite map_app, filter_app. cbn [map snd filter].
    destruct (in_home_range now data); rewrite order_desc_perm.
    + symmetry. apply Permutation_cons_append.
    + rewrite app_nil_r. reflexivity.
  - induction (filter (in_home_range now)
                 (Store.from (db_of (tbl ++ [(fresh, data)])) Store.expenses))
      as [|r rows IH]; simpl; [constructor|].
    apply insert_desc_sorted. exact IH.
Qed.

(** Adding a purchase dated 1 January on 15 January to a table that holds the
    rent of the sample: it is stored and listed; the rent, dated on the last
    day of the month, is not in the list before or after. *)
Lemma added_expense_is_listed_witness :
  let ui := mkUi Home.initial true None in
  let tbl := [("e1"%string, Sample.last_day_row)] in
  editingExpense ui = None /\ (0 < amount Sample.salary_row)%Q
  /\ in_home_range Sample.mid_january Sample.salary_row = true
  /\ fst (fst (handleSubmit Sample.mid_january "e2" Sample.salary_row tbl ui))
     = tbl ++ [("e2"%string, Sample.salary_row)]
  /\ Home.expenses
       (state (snd (fst (handleSubmit Sample.mid_january "e2"
                                      Sample.salary_row tbl ui))))
     = [Sample.salary_row].
Proof.
  cbv zeta.
  assert (H1 : editingExpense (mkUi Home.initial true None) = None)
    by reflexivity.
  assert (H2 : (0 < amount Sample.salary_row)%Q) by reflexivity.
  split; [exact H1|]. split; [exact H2|].
  split; [vm_compute; reflexivity|].
  split; [|vm_compute; reflexivity].
  exact (proj1 (added_expense_is_listed Sample.mid_january "e2"%string
                  Sample.salary_row [("e1"%string, Sample.last_day_row)]
                  _ H1 H2)).
Defined.

(** An amount that is not positive is refused by the store, on adding and on
    editing a stored expense alike: the table and the page stay as they
    were, the dialog stays open, and an error is reported. *)
Theorem nonpositive_expense_changes_nothing
        (now : Date) (fresh : string) (data : Row)
        (tbl : list Store.Stored) (ui : Ui) :
  (amount data <= 0)%Q ->
  (forall id, editingExpense ui = Some id -> In id (map fst tbl)) ->
  let result := handleSubmit now fresh data tbl ui in
  fst (fst result) = tbl /\ snd (fst result) = ui
  /\ exists message, snd result = Budgets.toast_error message.
Proof.
  intros Hneg Hid. cbv zeta. unfold handleSubmit. cbv zeta.
  destruct (editingExpense ui) as [id|] eqn:E.
  - unfold Store.update, Store.amount_check.
    replace (existsb (fun s => String.eqb (fst s) id) tbl) with true.
    2:{ symmetry. apply existsb_exists.
        specialize (Hid id eq_refl). apply in_map_iff in Hid as (s & Hs & Hin).
        exists s. split; [exact Hin|]. apply String.eqb_eq. exact Hs. }
    replace (Js.Qlt_bool 0 (amount data)) with false
      by (symmetry; apply Qlt_bool_false_iff; exact Hneg).
    split; [reflexivity|]. split; [reflexivity|]. eexists. reflexivity.
  - unfold Store.insert, Store.amount_check.
    replace (Js.Qlt_bool 0 (amount data)) with false
      by (symmetry; apply Qlt_bool_false_iff; exact Hneg).
    split; [reflexivity|]. split; [reflexivity|]. eexists. reflexivity.
Qed.

(** An expense of minus five is not added. *)
Lemma nonpositive_expense_changes_nothing_witness :
  let ui := mkUi Home.initial true None in
  (amount Sample.negative_income <= 0)%Q
  /\ fst (fst (handleSubmit Sample.mid_january "e1"
                  Sample.negative_income [] ui)) = [].
Proof.
  cbv zeta.
  assert (H1 : (amount Sample.negative_income <= 0)%Q) by discriminate.
  assert (H2 : forall id, editingExpense (mkUi Home.initial true None) = Some id
                          -> In id (map fst (@nil Store.Stored)))
    by (intros id H; discriminate H).
  split; [exact H1|].
  exact (proj1 (nonpositive_expense_changes_nothing Sample.mid_january
                  "e1"%string Sample.negative_income [] _ H1 H2)).
Defined.

(** Deleting the expense that was just added, under the key the store gave
    it, brings back the table and the list and total of the page. *)
Theorem add_then_delete_restores
        (now : Date) (fresh : string) (data : Row)
        (tbl : list Store.Stored) (ui : Ui) :
  editingExpense ui = None -> (0 < amount data)%Q ->
  ~ In fresh (map fst tbl) ->
  let added := handleSubmit now fresh data tbl ui in
  let deleted := handleDelete now fresh (fst (fst added)) (snd (fst added)) in
  fst (fst deleted) = tbl
  /\ state (snd (fst deleted)) = Home.fetchExpenses now (db_of tbl) (state ui).
Proof.
  intros Hedit Hpos Hfresh. cbv zeta. unfold handleSubmit. rewrite Hedit.
  cbv zeta. unfold Store.insert, Store.amount_check.
  replace (Js.Qlt_bool 0 (amount data)) with true
    by (symmetry; apply Qlt_bool_iff; exact Hpos).
  unfold handleDelete. cbn [fst snd state].
  rewrite delete_snoc by exact Hfresh.
  split; [reflexivity | apply fetchExpenses_twice].
Qed.

(** Adding the salary row as an expense to the empty table and deleting it. *)
Lemma add_then_delete_restores_witness :
  let ui := mkUi Home.initial true None in
  editingExpense ui = None /\ (0 < amount Sample.salary_row)%Q
  /\ ~ In "e1"%string (map fst (@nil Store.Stored))
  /\ fst (fst (handleDelete Sample.mid_january "e1"
                  (fst (fst (handleSubmit Sample.mid_january "e1"
                               Sample.salary_row [] ui)))
                  (snd (fst (handleSubmit Sample.mid_january "e1"
                               Sample.salary_row [] ui))))) = [].
Proof.
  cbv zeta.
  assert (H1 : editingExpense (mkUi Home.initial true None) = None)
    by reflexivity.
  assert (H2 : (0 < amount Sample.salary_row)%Q) by reflexivity.
  assert (H3 : ~ In "e1"%string (map fst (@nil Store.Stored))) by (intros []).
  split; [exact H1|]. split; [exact H2|]. split; [exact H3|].
  exact (proj1 (add_then_delete_restores Sample.mid_january "e1"%string
                  Sample.salary_row [] _ H1 H2 H3)).
Defined.

End ActionFacts.

(** ** The constraint of the expenses table and the earlier page, at samples *)

Section SampleFacts.

(** The expenses table after one insert of the rent of the sample. *)
Lemma expenses_amounts_positive_witness :
  Store.reachable Store.expenses [("e1"%string, Sample.last_day_row)]
  /\ Store.positive_amounts [("e1"%string, Sample.last_day_row)].
Proof.
  assert (H : Store.reachable Store.expenses
                [("e1"%string, Sample.last_day_row)]).
  { apply (Store.reach_insert Store.expenses [] "e1"%string Sample.last_day_row);
      [apply Store.reach_empty | reflexivity]. }
  split; [exact H|].
  exact (expenses_amounts_positive _ H).
Defined.

(** The earlier page on the worked example prints 66.7 and 33.3 as well. *)
Lemma unguarded_agrees_on_positive_witness :
  Forall (fun r => (0 < amount r)%Q) Analytics.example_rows
  /\ Analytics.categoryBreakdown_unguarded Analytics.example_rows
     = Analytics.categoryBreakdown Analytics.example_rows.
Proof.
  assert (H : Forall (fun r => (0 < amount r)%Q) Analytics.example_rows)
    by (repeat constructor).
  split; [exact H|].
  exact (unguarded_agrees_on_positive Analytics.example_rows H).
Defined.

End SampleFacts.

(** ** Doubles: comparisons with zero, and where [NaN] cannot come from *)

Section IeeeFacts.

Lemma not_above_zero (a : Ieee.double) :
  Ieee.ge Ieee.zero a = true \/ Ieee.is_nan a = true ->
  Ieee.gt a Ieee.zero = false.
Proof.
  destruct a as [s|s| |s m e]; try destruct s; cbn; intros [H|H];
    try reflexivity; discriminate.
Qed.

Lemma above_zero_finite (a : Ieee.double) :
  Ieee.gt a Ieee.zero = true -> Ieee.is_finite a = true ->
  exists m e, a = S754_finite false m e.
Proof.
  destruct a as [s|s| |s m e]; try destruct s; cbn; intros H1 H2;
    try discriminate. eauto.
Qed.

Lemma iter_pos_keeps {A : Type} (P : A -> Prop) (f : A -> A) :
  (forall x, P x -> P (f x)) ->
  forall n x, P x -> P (iter_pos f n x).
Proof.
  intro Hf. induction n as [n IH|n IH|]; intros x Hx; simpl; auto.
Qed.

Lemma shr_1_nonneg (mrs : shr_record) : 0 <= shr_m mrs -> 0 <= shr_m (shr_1 mrs).
Proof.
  destruct mrs as [m r s]. destruct m as [|p|p]; simpl; try lia.
  - destruct p; simpl; lia.
Qed.

Lemma shr_fexp_nonneg (m e : Z) (l : location) :
  0 <= m -> 0 <= shr_m (fst (shr_fexp Ieee.prec Ieee.emax m e l)).
Proof.
  intro Hm. unfold shr_fexp, shr.
  assert (H0 : 0 <= shr_m (shr_record_of_loc m l))
    by (destruct l as [|[| |]]; exact Hm).
  destruct (fexp Ieee.prec Ieee.emax (Zdigits2 m + e) - e) as [|p|p];
    cbn [fst]; try exact H0.
  apply (iter_pos_keeps (fun mrs => 0 <= shr_m mrs)); [apply shr_1_nonneg | exact H0].
Qed.

Lemma round_nearest_even_nonneg (m : Z) (l : location) :
  0 <= m -> 0 <= round_nearest_even m l.
Proof.
  intro Hm. destruct l as [|[| |]]; simpl; try lia.
  destruct (Z.even m); lia.
Qed.

(** Rounding a non-negative mantissa gives a zero, a finite double or an
    infinity. *)
Lemma binary_round_aux_not_nan (s : bool) (m e : Z) (l : location) :
  0 <= m ->
  Ieee.is_nan (binary_round_aux Ieee.prec Ieee.emax s m e l) = false.
Proof.
  intro Hm. unfold binary_round_aux.
  pose proof (shr_fexp_nonneg m e l Hm) as H1.
  destruct (shr_fexp Ieee.prec Ieee.emax m e l) as [mrs' e'].
  cbn [fst] in H1.
  pose proof (shr_fexp_nonneg
                (round_nearest_even (shr_m mrs') (loc_of_shr_record mrs'))
                e' loc_Exact (round_nearest_even_nonneg _ _ H1)) as H2.
  destruct (shr_fexp Ieee.prec Ieee.emax _ e' loc_Exact) as [mrs'' e''].
  cbn [fst] in H2.
  destruct (shr_m mrs'') as [|p|p]; [reflexivity | | lia].
  destruct (e'' <=? Ieee.emax - Ieee.prec); reflexivity.
Qed.

Lemma div_not_nan (a b : Ieee.double) (m : positive) (e : Z) :
  Ieee.is_finite a = true -> b = S754_finite false m e ->
  Ieee.is_nan (Ieee.div a b) = false.
Proof.
  intros Ha ->. destruct a as [s|s| |s ma ea]; try discriminate; [reflexivity|].
  unfold Ieee.div, SFdiv, SFdiv_core_binary. cbv zeta.
  match goal with
  | |- context [Z.div_eucl ?x ?y] =>
      pose proof (Z.div_eucl_eq x y ltac:(discriminate)) as Heq;
      pose proof (Z.mod_pos_bound x y ltac:(reflexivity)) as Hmod;
      assert (Hx : 0 <= x);
      [|unfold Z.modulo in Hmod; destruct (Z.div_eucl x y) as [q r]]
  end.
  - destruct (ea - e - _) as [|p|p]; try lia.
    apply Z.shiftl_nonneg. lia.
  - apply binary_round_aux_not_nan. nia.
Qed.

Lemma mul_finite_not_nan (a b : Ieee.double) (m : positive) (e : Z) :
  Ieee.is_nan a = false -> b = S754_finite false m e ->
  Ieee.is_nan (Ieee.mul a b) = false.
Proof.
  intros Ha ->. destruct a as [s|s| |s ma ea]; try discriminate;
    try reflexivity.
  unfold Ieee.mul, SFmul. apply binary_round_aux_not_nan. lia.
Qed.

Lemma binary_normalize_not_nan (z e : Z) :
  Ieee.is_nan (binary_normalize Ieee.prec Ieee.emax z e false) = false.
Proof.
  unfold binary_normalize, binary_round.
  destruct z as [|p|p]; [reflexivity| |];
    destruct (shl_align _ _ _) as [mz ez];
    apply binary_round_aux_not_nan; lia.
Qed.

Lemma sub_finite_not_nan (a b : Ieee.double) :
  Ieee.is_finite a = true -> Ieee.is_finite b = true ->
  Ieee.is_nan (Ieee.sub a b) = false.
Proof.
  intros Ha Hb.
  destruct a as [sa|sa| |sa ma ea]; try discriminate;
    destruct b as [sb|sb| |sb mb eb]; try discriminate.
  - destruct sa, sb; reflexivity.
  - reflexivity.
  - reflexivity.
  - unfold Ieee.sub, SFsub. apply binary_normalize_not_nan.
Qed.

(** Rounding keeps the sign it is given. *)
Lemma binary_round_aux_negative (m e : Z) (l : location) :
  0 <= m ->
  Ieee.gt (binary_round_aux Ieee.prec Ieee.emax true m e l) Ieee.zero = false.
Proof.
  intro Hm. unfold binary_round_aux.
  pose proof (shr_fexp_nonneg m e l Hm) as H1.
  destruct (shr_fexp Ieee.prec Ieee.emax m e l) as [mrs' e'].
  cbn [fst] in H1.
  pose proof (shr_fexp_nonneg
                (round_nearest_even (shr_m mrs') (loc_of_shr_record mrs'))
                e' loc_Exact (round_nearest_even_nonneg _ _ H1)) as H2.
  destruct (shr_fexp Ieee.prec Ieee.emax _ e' loc_Exact) as [mrs'' e''].
  cbn [fst] in H2.
  destruct (shr_m mrs'') as [|p|p]; [reflexivity | | lia].
  destruct (e'' <=? Ieee.emax - Ieee.prec); reflexivity.
Qed.

(** The double of a decimal that is not positive is not above 0, and
    neither is what [|| 0] makes of it. *)
Lemma of_Q_not_above_zero (q : Q) :
  (q <= 0)%Q -> Ieee.gt (Ieee.or_zero (Ieee.of_Q q)) Ieee.zero = false.
Proof.
  intro Hq.
  assert (H : Ieee.gt (Ieee.of_Q q) Ieee.zero = false).
  { unfold Ieee.of_Q. destruct q as [n d]. cbn [Qnum Qden].
    unfold Qle in Hq. cbn [Qnum Qden] in Hq.
    destruct n as [|n|n]; [reflexivity | lia |].
    unfold SFdiv_core_binary. cbv zeta.
    match goal with
    | |- context [Z.div_eucl ?x ?y] =>
        pose proof (Z.div_eucl_eq x y ltac:(discriminate)) as Heq;
        pose proof (Z.mod_pos_bound x y ltac:(reflexivity)) as Hmod;
        assert (Hx : 0 <= x);
        [|unfold Z.modulo in Hmod; destruct (Z.div_eucl x y) as [z r]]
    end.
    - destruct (0 - 0 - _) as [|p|p]; try lia.
      apply Z.shiftl_nonneg. lia.
    - apply binary_round_aux_negative. nia. }
  unfold Ieee.or_zero. destruct (Ieee.truthy (Ieee.of_Q q)); [exact H|reflexivity].
Qed.

End IeeeFacts.

(** ** Grouping by category, whatever the numbers *)

Section GroupingFacts.
Variable N : Type.
Variable add : N -> N -> N.
Variable or_zero : N -> N.
Variable zero : N.
Variable amount_of : Row -> N.
Hypothesis or_zero_zero : or_zero zero = zero.

Let get := Grouping.get N.
Let set := Grouping.set N.
Let step := Grouping.step N add or_zero zero amount_of.
Let add_row := fun (sum : N) (r : Row) => add (or_zero sum) (amount_of r).

Lemma g_get_set_same (m : list (string * N)) (k : string) (v : N) :
  get (set m k v) k = Some v.
Proof.
  induction m as [|[k' v'] m IH]; simpl.
  - rewrite String.eqb_refl. reflexivity.
  - destruct (String.eqb k' k) eqn:E; simpl; rewrite E; auto.
Qed.

Lemma g_get_set_other (m : list (string * N)) (k k' : string) (v : N) :
  k <> k' -> get (set m k v) k' = get m k'.
Proof.
  intro Hne. induction m as [|[k0 v0] m IH]; simpl.
  - destruct (String.eqb_spec k k'); [contradiction | reflexivity].
  - destruct (String.eqb_spec k0 k) as [->|Hk]; simpl.
    + destruct (String.eqb_spec k k'); [contradiction | reflexivity].
    + destruct (String.eqb k0 k'); auto.
Qed.

Lemma g_keys_set (m : list (string * N)) (k : string) (v : N) :
  map fst (set m k v)
  = if existsb (String.eqb k) (map fst m) then map fst m else map fst m ++ [k].
Proof.
  induction m as [|[k' v'] m IH]; simpl; [reflexivity|].
  rewrite (String.eqb_sym k k').
  destruct (String.eqb k' k) eqn:E; simpl; [reflexivity|].
  rewrite IH. destruct (existsb (String.eqb k) (map fst m)); reflexivity.
Qed.

(** The keys of the map: those it started with, then the new categories in
    the order they first come up. *)
Lemma g_keys_fold (rows : list Row) (m : list (string * N)) :
  map fst (fold_left step rows m)
  = map fst m
    ++ filter (fun x => negb (existsb (String.eqb x) (map fst m)))
         (Page.first_occurrences (map category rows)).
Proof.
  revert m. induction rows as [|r rows IH]; intro m; cbn [fold_left map].
  - simpl. rewrite app_nil_r. reflexivity.
  - rewrite IH. unfold step, Grouping.step.
    fold set. rewrite g_keys_set. cbn [Page.first_occurrences filter].
    set (K := map fst m). set (c := category r).
    set (F := Page.first_occurrences (map category rows)).
    destruct (existsb (String.eqb c) K) eqn:E; cbn [negb].
    + f_equal. rewrite filter_twice. apply filter_ext. intro x.
      destruct (String.eqb_spec c x) as [<-|Hne]; cbn [negb].
      * rewrite E. reflexivity.
      * rewrite andb_true_r. reflexivity.
    + rewrite <- app_assoc. cbn [app]. f_equal. f_equal.
      rewrite filter_twice. apply filter_ext. intro x.
      rewrite existsb_app. cbn [existsb]. rewrite orb_false_r, negb_orb.
      rewrite (String.eqb_sym x c). reflexivity.
Qed.

Lemma g_keys (rows : list Row) :
  map fst (Grouping.categoryMap N add or_zero zero amount_of rows)
  = Page.first_occurrences (map category rows).
Proof.
  unfold Grouping.categoryMap. fold step. rewrite g_keys_fold.
  cbn [map app existsb negb].
  induction (Page.first_occurrences (map category rows)) as [|x l IHl];
    simpl; [reflexivity | rewrite IHl; reflexivity].
Qed.

Lemma g_get_step (m : list (string * N)) (r : Row) (k : string) :
  get (step m r) k
  = if String.eqb (category r) k
    then Some (add_row (match get m k with Some v => v | None => zero end) r)
    else get m k.
Proof.
  unfold step, Grouping.step, Grouping.current. fold get set.
  destruct (String.eqb_spec (category r) k) as [->|Hne].
  - rewrite g_get_set_same. unfold add_row.
    destruct (get m k); [reflexivity|]. rewrite or_zero_zero. reflexivity.
  - apply g_get_set_other. exact Hne.
Qed.

(** What the map holds under a key while the [forEach] runs: what it held
    before, with the amounts of the rows of that category added in turn. *)
Lemma g_values_fold (rows : list Row) (m : list (string * N)) (k : string) :
  get (fold_left step rows m) k
  = match Grouping.group rows k with
    | [] => get m k
    | g => Some (fold_left add_row g
                   (match get m k with Some v => v | None => zero end))
    end.
Proof.
  revert m. induction rows as [|r rows IH]; intro m; [reflexivity|].
  cbn [fold_left]. rewrite IH, g_get_step. unfold Grouping.group. cbn [filter].
  fold (Grouping.group rows k).
  destruct (String.eqb (category r) k);
    destruct (Grouping.group rows k); reflexivity.
Qed.

Lemma g_In_get (m : list (string * N)) (k : string) (v : N) :
  NoDup (map fst m) -> In (k, v) m -> get m k = Some v.
Proof.
  induction m as [|[k' v'] m IH]; simpl; [intros _ []|].
  intros Hnd [[= -> ->]|Hin].
  - rewrite String.eqb_refl. reflexivity.
  - inversion Hnd as [|? ? Hnot Hnd']; subst.
    destruct (String.eqb_spec k' k) as [->|Hne]; [|auto].
    exfalso. apply Hnot. apply (in_map fst) in Hin. exact Hin.
Qed.

(** Every entry of the finished map holds the running sum of its category. *)
Lemma g_entry (rows : list Row) (k : string) (v : N) :
  In (k, v) (Grouping.categoryMap N add or_zero zero amount_of rows) ->
  v = Grouping.running N add or_zero zero amount_of (Grouping.group rows k).
Proof.
  intro Hin.
  assert (Hnd : NoDup (map fst (Grouping.categoryMap N add or_zero zero
                                  amount_of rows))).
  { rewrite g_keys. apply NoDup_first_occurrences. }
  pose proof (g_In_get _ _ _ Hnd Hin) as Hg.
  unfold Grouping.categoryMap in Hg. fold step in Hg.
  rewrite g_values_fold in Hg. cbn [get Grouping.get] in Hg.
  unfold Grouping.running. fold add_row.
  destruct (Grouping.group rows k); [discriminate|]. congruence.
Qed.

End GroupingFacts.

(** ** Every row belongs to one group *)

Section PartitionFacts.

Lemma group_absent (rows : list Row) (ks : list string) (r : Row) :
  ~ In (category r) ks ->
  flat_map (Grouping.group (r :: rows)) ks = flat_map (Grouping.group rows) ks.
Proof.
  induction ks as [|k ks IH]; intro H; [reflexivity|].
  cbn [flat_map]. rewrite IH by (intro Hin; apply H; right; exact Hin).
  unfold Grouping.group at 1. cbn [filter].
  destruct (String.eqb_spec (category r) k) as [E|_]; [|reflexivity].
  exfalso. apply H. left. symmetry. exact E.
Qed.

Lemma group_present (rows : list Row) (ks : list string) (r : Row) :
  NoDup ks -> In (category r) ks ->
  Permutation (flat_map (Grouping.group (r :: rows)) ks)
              (r :: flat_map (Grouping.group rows) ks).
Proof.
  induction ks as [|k ks IH]; intros Hnd Hin; [destruct Hin|].
  inversion Hnd as [|? ? Hnot Hnd']; subst. cbn [flat_map].
  unfold Grouping.group at 1. cbn [filter].
  destruct (String.eqb_spec (category r) k) as [E|Hne].
  - subst k. rewrite group_absent by exact Hnot. reflexivity.
  - destruct Hin as [E|Hin]; [congruence|].
    rewrite (IH Hnd' Hin). symmetry. apply Permutation_middle.
Qed.

(** The groups of the categories that occur, put end to end, are the rows
    again: none is lost and none is taken twice. *)
Lemma groups_partition (rows : list Row) (ks : list string) :
  NoDup ks -> (forall r, In r rows -> In (category r) ks) ->
  Permutation (flat_map (Grouping.group rows) ks) rows.
Proof.
  intros Hnd. induction rows as [|r rows IH]; intro Hall.
  - clear Hnd Hall. induction ks as [|k ks IHk]; [reflexivity | exact IHk].
  - rewrite group_present; [|exact Hnd | apply Hall; left; reflexivity].
    constructor. apply IH. intros x Hx. apply Hall. right. exact Hx.
Qed.

Lemma sum_amounts_permutation (l l' : list Row) :
  Permutation l l' -> (sum_amounts l == sum_amounts l')%Q.
Proof.
  induction 1 as [|r l l' _ IH|a b l|l l' l'' _ IH1 _ IH2];
    cbn [sum_amounts].
  - reflexivity.
  - rewrite IH. reflexivity.
  - ring.
  - rewrite IH1. exact IH2.
Qed.

Lemma sum_amounts_flat_map (f : string -> list Row) (ks : list string) :
  (sum_amounts (flat_map f ks)
   == fold_right (fun c s => sum_amounts (f c) + s) 0 ks)%Q.
Proof.
  induction ks as [|k ks IH]; cbn [flat_map fold_right]; [reflexivity|].
  rewrite sum_amounts_app, IH. reflexivity.
Qed.

End PartitionFacts.

(** ** The category breakdown on doubles *)

Section Analytics64Facts.
Import Analytics64.

Lemma or_zero_zero64 : Ieee.or_zero Ieee.zero = Ieee.zero.
Proof. reflexivity. Qed.

Lemma breakdown64_names (rows : list Row) :
  map name (categoryBreakdown rows)
  = Page.first_occurrences (map category rows).
Proof.
  unfold categoryBreakdown, categoryMap. rewrite map_map. cbn [name].
  apply (g_keys Ieee.double Ieee.add Ieee.or_zero Ieee.zero Number).
Qed.

Lemma breakdown64_entry (rows : list Row) (c : CategoryData) :
  In c (categoryBreakdown rows) ->
  value c = group_sum rows (name c)
  /\ percentage c = share (total rows) (value c).
Proof.
  unfold categoryBreakdown. intro Hin.
  apply in_map_iff in Hin as ([k v] & <- & He). cbn [name value percentage fst snd].
  split; [|reflexivity].
  apply (g_entry Ieee.double Ieee.add Ieee.or_zero Ieee.zero Number
           or_zero_zero64 rows k v He).
Qed.

Lemma toFixed1_text_not_NaN (q : Q) : Js.toFixed1 (Num q) <> "NaN"%string.
Proof.
  intro H. pose proof (read_toFixed1 q) as Hr. rewrite H in Hr. discriminate.
Qed.

Lemma toFixed1_not_NaN (a : Ieee.double) :
  Ieee.is_nan a = false -> Ieee.toFixed1 a <> Ieee.Text "NaN".
Proof.
  intro Ha. unfold Ieee.toFixed1.
  destruct a as [s|s| |s m e].
  - destruct (Qle_bool _ _); [discriminate|].
    intro H. apply (toFixed1_text_not_NaN (Ieee.value (S754_zero s))).
    congruence.
  - destruct s; discriminate.
  - discriminate Ha.
  - destruct (Qle_bool _ _); [discriminate|].
    intro H. apply (toFixed1_text_not_NaN (Ieee.value (S754_finite s m e))).
    congruence.
Qed.

(** A finite amount over a finite total never prints [NaN]. *)
Lemma share_not_NaN (t v : Ieee.double) :
  Ieee.is_finite v = true -> Ieee.is_finite t = true ->
  share t v <> Ieee.Text "NaN".
Proof.
  intros Hv Ht. unfold share.
  destruct (Ieee.gt t Ieee.zero) eqn:E; [|discriminate].
  destruct (above_zero_finite t E Ht) as (m & e & Hte).
  apply toFixed1_not_NaN.
  apply (mul_finite_not_nan _ _ 7036874417766400 (-46));
    [|reflexivity].
  apply (div_not_nan v t m e Hv Hte).
Qed.

(** At the worked example, 100 and 300 for food and 200 for transport, the
    page on doubles and its decimal reading print the same shares. *)
Lemma example_rows_on_doubles :
  map percentage (categoryBreakdown Analytics.example_rows)
    = [Ieee.Text "66.7"; Ieee.Text "33.3"]
  /\ map Analytics.percentage (Analytics.categoryBreakdown Analytics.example_rows)
     = ["66.7"%string; "33.3"%string]
  /\ map value (categoryBreakdown Analytics.example_rows)
     = [Ieee.of_Q 400; Ieee.of_Q 200]
  /\ total Analytics.example_rows = Ieee.of_Q 600.
Proof. repeat split; vm_compute; reflexivity. Qed.




(** C5, as the claim words it, fails on the page.  With 0.10 for food, 0.10
    for bills and 0.40 for food the total is 0.6000000000000001, while the
    category amounts 0.5 and 0.1 add up to 0.6. *)
Lemma breakdown64_amounts_miss_total :
  total rows_regrouped = S754_finite false 5404319552844596 (-53)
  /\ sum_values (categoryBreakdown rows_regrouped)
     = S754_finite false 5404319552844595 (-53)
  /\ Ieee.of_Q (6 # 10) = S754_finite false 5404319552844595 (-53)
  /\ sum_values (categoryBreakdown rows_regrouped) <> total rows_regrouped.
Proof.
  split; [vm_compute; reflexivity|].
  split; [vm_compute; reflexivity|].
  split; [vm_compute; reflexivity|].
  vm_compute. discriminate.
Qed.

(** C5, amended.  For every list of rows, grouping by category neither
    counts a row twice nor leaves one out: the breakdown has one entry per
    category that occurs, and the rows of these categories put end to end
    are the rows of the list again, so the decimal amounts of the groups add
    up to the decimal total exactly.  On the page each entry holds the
    amounts of the rows of its category added as doubles in the order of the
    list, and the total holds the amounts of all rows added in that order. *)
Theorem breakdown64_groups_each_row_once (rows : list Row) :
  let group c := filter (fun r => String.eqb (category r) c) rows in
  map name (categoryBreakdown rows)
    = Page.first_occurrences (map category rows)
  /\ NoDup (map name (categoryBreakdown rows))
  /\ Permutation (flat_map group (map name (categoryBreakdown rows))) rows
  /\ (fold_right (fun c s => sum_amounts (group c) + s) 0
                 (map name (categoryBreakdown rows))
      == sum_amounts rows)%Q
  /\ Forall (fun c =>
       value c
         = fold_left (fun sum r =>
                        Ieee.add (Ieee.or_zero sum) (Ieee.of_Q (amount r)))
             (group (name c)) Ieee.zero)
     (categoryBreakdown rows)
  /\ total rows
     = fold_left (fun sum r => Ieee.add sum (Ieee.of_Q (amount r)))
                 rows Ieee.zero.
Proof.
  cbv zeta.
  assert (Hperm : Permutation
            (flat_map (fun c => filter (fun r => String.eqb (category r) c) rows)
                      (map name (categoryBreakdown rows)))
            rows).
  { rewrite breakdown64_names.
    apply (groups_partition rows); [apply NoDup_first_occurrences|].
    intros r Hr. apply In_first_occurrences. apply in_map. exact Hr. }
  split; [apply breakdown64_names|].
  split; [rewrite breakdown64_names; apply NoDup_first_occurrences|].
  split; [exact Hperm|].
  split; [rewrite <- (sum_amounts_permutation _ _ Hperm);
          symmetry; apply sum_amounts_flat_map|].
  split; [|reflexivity].
  apply Forall_forall. intros c Hc.
  exact (proj1 (breakdown64_entry rows c Hc)).
Qed.


End Analytics64Facts.

(** ** The budget card on doubles *)

Section Budget64Facts.
Import Home64.




End Budget64Facts.
